(** * kirin / COTS connector: the feed interpretation of
      [kirin/cots/model_maker.py]

    A shallow embedding of the module's functions, in the order of the
    source file, followed by the properties of the stop filter, of the
    projected-time resolver and of the trip-update builder. *)

From Stdlib Require Import ZArith String List Bool Lia.
Import ListNotations.
Set Warnings "-register-all".
Local Open Scope string_scope.
Local Open Scope list_scope.

(** ** JSON values, as [ujson.loads] hands them to the module *)

Module Json.

(** A decoded JSON document.  A number is a whole number, as the delays
    of the feed are; a number with a fraction, which [ujson] decodes to a
    float, is outside this model.  A [dict] is its list of bindings; a key
    is looked up at its first binding. *)
Inductive json : Type :=
| JNull
| JBool (b : bool)
| JNum (z : Z)
| JStr (s : string)
| JArr (items : list json)
| JObj (fields : list (string * json)).

Definition obj : Type := list (string * json).

(** [x is None] *)
Definition is_none (v : json) : bool :=
  match v with JNull => true | _ => false end.

(** Python's truth value: [None], [False], [0], [''], [[]] and [{}] are
    false, everything else is true. *)
Definition truthy (v : json) : bool :=
  match v with
  | JNull => false
  | JBool b => b
  | JNum z => negb (Z.eqb z 0)
  | JStr s => negb (String.eqb s "")
  | JArr items => match items with [] => false | _ :: _ => true end
  | JObj fields => match fields with [] => false | _ :: _ => true end
  end.

(** [d[key]] when the key is bound. *)
Fixpoint lookup (o : obj) (key : string) : option json :=
  match o with
  | [] => None
  | (k, v) :: o' => if String.eqb k key then Some v else lookup o' key
  end.

(** [d.get(key)]: [None] when the key is not bound. *)
Definition dict_get (o : obj) (key : string) : json :=
  match lookup o key with Some v => v | None => JNull end.

(** [d.get(key, default)] *)
Definition dict_get_default (o : obj) (key : string) (default : json) : json :=
  match lookup o key with Some v => v | None => default end.

(** Python's [==] on decoded values.  [True == 1] and [False == 0] hold
    in Python, lists compare element by element, dicts compare as maps
    (same number of keys, every key of the left bound to an equal value
    on the right). *)
Fixpoint py_eq (a b : json) {struct a} : bool :=
  match a, b with
  | JNull, JNull => true
  | JBool x, JBool y => Bool.eqb x y
  | JBool x, JNum z => Z.eqb (Z.b2z x) z
  | JNum z, JBool x => Z.eqb z (Z.b2z x)
  | JNum x, JNum y => Z.eqb x y
  | JStr x, JStr y => String.eqb x y
  | JArr xs, JArr ys =>
      (fix eq_items (xs ys : list json) {struct xs} : bool :=
         match xs, ys with
         | [], [] => true
         | x :: xs', y :: ys' => py_eq x y && eq_items xs' ys'
         | _, _ => false
         end) xs ys
  | JObj xs, JObj ys =>
      Nat.eqb (List.length xs) (List.length ys) &&
      (fix eq_fields (xs : obj) {struct xs} : bool :=
         match xs with
         | [] => true
         | (k, v) :: xs' =>
             match lookup ys k with
             | Some w => py_eq v w && eq_fields xs'
             | None => false
             end
         end) xs
  | _, _ => false
  end.

(** [x in [c1, c2, ...]] *)
Definition py_in (x : json) (l : list json) : bool := existsb (py_eq x) l.

End Json.
Import Json.

(** ** Exceptions *)

(** Which of the two directions of a stop a piece of data is about: the
    strings ['Arrivee'] and ['Depart'] of the source. *)
Inductive toggle : Type := Arrivee | Depart.

(** The texts of the [InvalidArguments] the module raises, one constructor
    per [raise] of the source with the values formatted into the text. *)
Inductive invalid : Type :=
| MissingKey (key : string) (elt : json)
    (* 'invalid json, impossible to find "{key}" in json dict {elt}' *)
| SourceNotFound (source_ref : json) (l : json)
    (* 'invalid json, impossible to find source "{s}" in any json dict of list: {l}' *)
| MultipleNoSource (l : json)
    (* 'invalid json, impossible no source but multiple json dicts in list: {l}' *)
| NoValidStopTime (elt : json)
    (* 'invalid json, "listePointDeParcours" has no valid stop_time in json elt {elt}' *)
| InvalidStatus (status : json) (direction : toggle)
    (* 'invalid value {} for field horaireVoyageur{}/statutCirculationOPE' *)
| InvalidJson
    (* 'invalid json: {}' *)
| NoNouvelleVersion.
    (* 'No object "nouvelleVersion" available in feed provided' *)

(** An exception leaving the module: [InvalidArguments] (the spec's
    InvalidFeed), the builtin exceptions Python raises on a value of the
    wrong shape or out of range, and whatever the trip lookup raises (the
    spec's NotFound). *)
Inductive exn : Type :=
| InvalidArguments (why : invalid)
| AttributeError
| TypeError
| KeyError
| IndexError
| ValueError
| Collaborator (what : string).

Inductive result (A : Type) : Type :=
| Ok (a : A)
| Raise (e : exn).
Arguments Ok {A} a.
Arguments Raise {A} e.

Definition rbind {A B} (r : result A) (k : A -> result B) : result B :=
  match r with Ok a => k a | Raise e => Raise e end.

Declare Scope result_scope.
Delimit Scope result_scope with result.
Notation "x <- c ;; k" := (rbind c (fun x => k))
  (at level 61, c at next level, right associativity) : result_scope.

(** ** [get_value] and [is_station] *)

(** [get_value(sub_json, key, nullable)]: [sub_json.get(key)], an
    [InvalidArguments] naming the key and the record when the value is
    [None] and [nullable] is false.  A [sub_json] that is not a dict has no
    [get]. *)
Definition get_value (sub_json : json) (key : string) (nullable : bool)
  : result json :=
  match sub_json with
  | JObj o =>
      let res := dict_get o key in
      if is_none res && negb nullable
      then Raise (InvalidArguments (MissingKey key sub_json))
      else Ok res
  | _ => Raise AttributeError
  end.

(** [get_value(pdp, key, nullable=True)] on a dict: it cannot raise. *)
Definition get_nullable (pdp : obj) (key : string) : json := dict_get pdp key.

(** [is_station(pdp)] *)
Definition is_station (pdp : obj) : bool :=
  let t := get_nullable pdp "typeArret" in
  is_none t || py_in t [JStr ""; JStr "CD"; JStr "CH"; JStr "FD"; JStr "FH"].

(** ** [_retrieve_interesting_pdp] *)

Definition has_depart (pdp : obj) : bool :=
  truthy (get_nullable pdp "horaireVoyageurDepart").

Definition has_arrivee (pdp : obj) : bool :=
  truthy (get_nullable pdp "horaireVoyageurArrivee").

(** [enumerate(l)], counting from [idx]. *)
Fixpoint enumerate_from {A} (idx : nat) (l : list A) : list (nat * A) :=
  match l with
  | [] => []
  | x :: l' => (idx, x) :: enumerate_from (S idx) l'
  end.

(** The [any(...)] of the source over the slice [list_pdp[idx:]]. *)
Definition has_following_arrival (list_pdp : list obj) (idx : nat) : bool :=
  existsb (fun follow_pdp => has_arrivee follow_pdp && is_station follow_pdp)
          (skipn idx list_pdp).

(** The [for] loop of the source over the enumerated points still to
    visit, with the loop's two variables [picked_one] and [res];
    [continue] is the recursive call on the rest, [break] returns [res]. *)
Fixpoint pdp_loop (list_pdp : list obj) (todo : list (nat * obj))
         (picked_one : bool) (res : list obj) : list obj :=
  match todo with
  | [] => res
  | (idx, pdp) :: todo' =>
      if negb picked_one && negb (has_depart pdp)
      then pdp_loop list_pdp todo' picked_one res
      else if negb (is_station pdp)
      then pdp_loop list_pdp todo' picked_one res
      else if negb (has_depart pdp) && negb (has_arrivee pdp)
      then pdp_loop list_pdp todo' picked_one res
      else if negb (has_arrivee pdp) && negb (has_following_arrival list_pdp idx)
      then res
      else pdp_loop list_pdp todo' true (res ++ [pdp])
  end.

Definition _retrieve_interesting_pdp (list_pdp : list obj) : list obj :=
  pdp_loop list_pdp (enumerate_from 0 list_pdp) false [].

(** ** [as_duration] *)

(** A [datetime.timedelta] of whole seconds, normalised as Python does:
    [0 <= seconds < 86400], the sign is carried by [days]. *)
Record timedelta : Type := mk_timedelta { days : Z; seconds : Z }.

Definition timedelta_of_seconds (s : Z) : timedelta :=
  mk_timedelta (s / 86400) (s mod 86400).

(** [timedelta.total_seconds()] *)
Definition total_seconds (d : timedelta) : Z := days d * 86400 + seconds d.

(** [datetime.utcfromtimestamp(t)] on a whole number of seconds: a
    datetime of the years 1 to 9999, kept here as the seconds since the
    epoch it stands for; a timestamp before 0001-01-01T00:00:00 or after
    9999-12-31T23:59:59 is a [ValueError]. *)
Definition timestamp_min : Z := -62135596800.
Definition timestamp_max : Z := 253402300799.

Definition utcfromtimestamp (t : Z) : result Z :=
  if (timestamp_min <=? t)%Z && (t <=? timestamp_max)%Z
  then Ok t
  else Raise ValueError.

(** [as_duration(seconds)]: the difference of two UTC timestamps.  [None]
    gives [None]; a number gives that many seconds when it is a timestamp
    [utcfromtimestamp] accepts ([True] and [False] are the numbers 1 and 0
    in Python); anything else is not a float. *)
Definition as_duration (secs : json) : result (option timedelta) :=
  match secs with
  | JNull => Ok None
  | JNum z =>
      (t <- utcfromtimestamp z;;
       epoch <- utcfromtimestamp 0;;
       Ok (Some (timedelta_of_seconds (t - epoch))))%result
  | JBool b =>
      (t <- utcfromtimestamp (Z.b2z b);;
       epoch <- utcfromtimestamp 0;;
       Ok (Some (timedelta_of_seconds (t - epoch))))%result
  | _ => Raise TypeError
  end.

(** ** [_retrieve_projected_time] *)

Local Open Scope result_scope.

(** The one-character strings a Python string iterates over. *)
Fixpoint chars (s : string) : list json :=
  match s with
  | EmptyString => []
  | String c s' => JStr (String c EmptyString) :: chars s'
  end.

(** [for p in v]: the items of a list, the characters of a string, the
    keys of a dict; nothing else of JSON is iterable. *)
Definition py_iter (v : json) : result (list json) :=
  match v with
  | JArr items => Ok items
  | JStr s => Ok (chars s)
  | JObj o => Ok (map (fun kv => JStr (fst kv)) o)
  | _ => Raise TypeError
  end.

(** [len(v)] *)
Definition py_len (v : json) : result nat :=
  match v with
  | JArr items => Ok (List.length items)
  | JStr s => Ok (String.length s)
  | JObj o => Ok (List.length o)
  | _ => Raise TypeError
  end.

(** [v[0]]: the keys of a decoded JSON object are strings, never [0]. *)
Definition py_item0 (v : json) : result json :=
  match v with
  | JArr (x :: _) => Ok x
  | JStr (String c _) => Ok (JStr (String c EmptyString))
  | JArr [] | JStr EmptyString => Raise IndexError
  | JObj _ => Raise KeyError
  | _ => Raise TypeError
  end.

(** The [for p in list_proj_time] loop of the source: the first item whose
    ['source'] is not [None] and equals the reference. *)
Fixpoint find_source (source_ref : json) (items : list json)
  : result (option json) :=
  match items with
  | [] => Ok None
  | p :: items' =>
      s <- get_value p "source" true;;
      if negb (is_none s) && py_eq s source_ref
      then Ok (Some p)
      else find_source source_ref items'
  end.

(** [_retrieve_projected_time(source_ref, list_proj_time)]; the result
    [JNull] is the [None] of the source. *)
Definition _retrieve_projected_time (source_ref list_proj_time : json)
  : result json :=
  if negb (is_none source_ref) then
    found <- (if truthy list_proj_time
              then items <- py_iter list_proj_time;;
                   find_source source_ref items
              else Ok None);;
    match found with
    | Some p => Ok p
    | None => Raise (InvalidArguments (SourceNotFound source_ref list_proj_time))
    end
  else if truthy list_proj_time then
    n <- py_len list_proj_time;;
    if Nat.eqb n 1
    then py_item0 list_proj_time
    else Raise (InvalidArguments (MultipleNoSource list_proj_time))
  else Ok JNull.

(** ** The trip-update model and the diagnostics *)

(** [kirin.core.model.ModificationType], as far as this module assigns
    it: the strings ['update'] and ['delete']; [unset] is the value of a
    status the module did not assign. *)
Inductive status : Type := unset | update | delete.

(** One call of [record_internal_failure] followed by the ['metrology']
    log line, with the text it carries. *)
Inductive diag : Type :=
| TripNotHandled
    (* 'nouvelleVersion/statutOperationnel == "AJOUTEE" is not handled (yet)' *)
| StopNotHandledCompletely (status : json)
    (* '.../statutCirculationOPE == "{}" is not handled completely (yet), only removal' *)
| StopNotHandled (status : json)
    (* '.../statutCirculationOPE == "{}" is not handled (yet)' *)
| StopTimeLog (log : string).
    (* the log_dict['log'] of the stop lookup *)

Record StopTimeUpdate : Type := mk_StopTimeUpdate {
  stop : json;
  st_message : option string;
  arrival_status : status;
  departure_status : status;
  arrival_delay : option timedelta;
  departure_delay : option timedelta
}.

(** Modelled from the spec: the constructor [model.StopTimeUpdate] lives in
    [kirin/core/model.py], which is not among the sources.  A fresh
    StopTimeUpdate refers to the matched stop, has no message, both
    statuses unset and no delay. *)
Definition new_StopTimeUpdate (nav_stop : json) : StopTimeUpdate :=
  mk_StopTimeUpdate nav_stop None unset unset None None.

(** [setattr(st_update, _status_map[toggle], s)] *)
Definition set_status (t : toggle) (s : status) (st : StopTimeUpdate)
  : StopTimeUpdate :=
  match t with
  | Arrivee => mk_StopTimeUpdate (stop st) (st_message st) s (departure_status st)
                 (arrival_delay st) (departure_delay st)
  | Depart => mk_StopTimeUpdate (stop st) (st_message st) (arrival_status st) s
                 (arrival_delay st) (departure_delay st)
  end.

(** [setattr(st_update, _delay_map[toggle], d)] *)
Definition set_delay (t : toggle) (d : option timedelta) (st : StopTimeUpdate)
  : StopTimeUpdate :=
  match t with
  | Arrivee => mk_StopTimeUpdate (stop st) (st_message st) (arrival_status st)
                 (departure_status st) d (departure_delay st)
  | Depart => mk_StopTimeUpdate (stop st) (st_message st) (arrival_status st)
                 (departure_status st) (arrival_delay st) d
  end.

Definition set_st_message (m : option string) (st : StopTimeUpdate)
  : StopTimeUpdate :=
  mk_StopTimeUpdate (stop st) m (arrival_status st) (departure_status st)
    (arrival_delay st) (departure_delay st).

(** [getattr] of the two per-direction fields. *)
Definition status_of (t : toggle) (st : StopTimeUpdate) : status :=
  match t with Arrivee => arrival_status st | Depart => departure_status st end.

Definition delay_of (t : toggle) (st : StopTimeUpdate) : option timedelta :=
  match t with Arrivee => arrival_delay st | Depart => departure_delay st end.

(** ['Arrivee'] / ['Depart'], and the three keys formatted with it. *)
Definition toggle_name (t : toggle) : string :=
  match t with Arrivee => "Arrivee" | Depart => "Depart" end.

Definition horaireVoyageur (t : toggle) : string :=
  "horaireVoyageur" ++ toggle_name t.

Definition sourceHoraireProjeteReference (t : toggle) : string :=
  "sourceHoraireProjete" ++ toggle_name t ++ "Reference".

Definition listeHoraireProjete (t : toggle) : string :=
  "listeHoraireProjete" ++ toggle_name t.

(** ** Computations that log and may raise *)

(** A method of the builder: the diagnostics it records, in order, and the
    value it returns or the exception it raises; what was recorded before
    a [raise] stays recorded. *)
Definition M (A : Type) : Type := (list diag * result A)%type.

Definition ret {A} (a : A) : M A := ([], Ok a).

Definition raise {A} (e : exn) : M A := ([], Raise e).

Definition bind {A B} (m : M A) (k : A -> M B) : M B :=
  match m with
  | (w, Ok a) => let (w', r) := k a in (w ++ w', r)
  | (w, Raise e) => (w, Raise e)
  end.

Definition lift {A} (r : result A) : M A := ([], r).

Declare Scope builder_scope.
Delimit Scope builder_scope with builder.
Notation "x <~ c ;; k" := (bind c (fun x => k))
  (at level 61, c at next level, right associativity) : builder_scope.
Notation "c ;;; k" := (bind c (fun _ => k))
  (at level 61, right associativity) : builder_scope.

(** A [for] loop threading a value through the iterations. *)
Fixpoint for_each {A S} (body : A -> S -> M S) (l : list A) (s : S) : M S :=
  match l with
  | [] => ret s
  | x :: l' => bind (body x s) (for_each body l')
  end.

(** A list comprehension whose element expression logs and may raise. *)
Fixpoint map_M {A B} (f : A -> M B) (l : list A) : M (list B) :=
  match l with
  | [] => ret []
  | x :: l' => bind (f x) (fun y => bind (map_M f l') (fun ys => ret (y :: ys)))
  end.

(** ** [KirinModelBuilder] *)

(** The points the loop of [_retrieve_interesting_pdp] visits when handed
    the decoded value [v].  Each point a list holds is read with
    [get_value], either by the loop or, on [break], by the look-ahead that
    found nothing, so a list with an item that is not a dict raises
    [AttributeError]; so do the characters of a string and the keys of a
    dict; a number is not iterable. *)
Fixpoint as_dicts (items : list json) : option (list obj) :=
  match items with
  | [] => Some []
  | JObj o :: items' =>
      match as_dicts items' with Some l => Some (o :: l) | None => None end
  | _ :: _ => None
  end.

Definition pdp_list (v : json) : result (list obj) :=
  match v with
  | JArr items =>
      match as_dicts items with
      | Some l => Ok l
      | None => Raise AttributeError
      end
  | JStr _ | JObj _ => if truthy v then Raise AttributeError else Ok []
  | _ => Raise TypeError
  end.

(** ['nouvelleVersion' in v] *)
Definition py_contains (key : string) (v : json) : result bool :=
  match v with
  | JObj o => Ok (match lookup o key with Some _ => true | None => false end)
  | JArr items => Ok (py_in (JStr key) items)
  | JStr s => Ok (match String.index 0 key s with Some _ => true | None => false end)
  | _ => Raise TypeError
  end.

Section Builder.

Local Open Scope builder_scope.

(** The collaborators of the builder, none of them among the sources:
    the trip instances of kirin, [dateutil]'s parser, the message
    handler, the stop and trip lookups of
    [kirin.abstract_sncf_model_maker], and [ujson.loads] ([None] for the
    [ValueError] of a text that is not JSON). *)
Variable VJ : Type.
Variable DateTime : Type.
Variable contributor : option string.
Variable get_message : json -> option string.
Variable get_navitia_stop_time_sncf :
  json -> json -> json -> VJ -> option obj * option string.
Variable _get_navitia_vjs : json -> DateTime -> DateTime -> result (list VJ).
Variable parser_parse : json -> result DateTime.
Variable ujson_loads : string -> option json.

Record TripUpdate : Type := mk_TripUpdate {
  vj : VJ;
  tu_contributor : option string;
  tu_message : option string;
  tu_status : status;
  stop_time_updates : list StopTimeUpdate
}.

(** Modelled from the spec: the constructor [model.TripUpdate] lives in
    [kirin/core/model.py], which is not among the sources.  A fresh
    TripUpdate refers to the trip instance, has no contributor, no
    message, no status assigned and an empty stop-time sequence. *)
Definition new_TripUpdate (v : VJ) : TripUpdate :=
  mk_TripUpdate v None None unset [].

Definition set_contributor (c : option string) (tu : TripUpdate) :=
  mk_TripUpdate (vj tu) c (tu_message tu) (tu_status tu) (stop_time_updates tu).

Definition set_message (m : option string) (tu : TripUpdate) :=
  mk_TripUpdate (vj tu) (tu_contributor tu) m (tu_status tu) (stop_time_updates tu).

Definition set_tu_status (s : status) (tu : TripUpdate) :=
  mk_TripUpdate (vj tu) (tu_contributor tu) (tu_message tu) s (stop_time_updates tu).

Definition set_stop_time_updates (l : list StopTimeUpdate) (tu : TripUpdate) :=
  mk_TripUpdate (vj tu) (tu_contributor tu) (tu_message tu) (tu_status tu) l.

(** [_get_vjs(json_train)] *)
Definition _get_vjs (json_train : json) : result (list VJ) :=
  (train_numbers <- get_value json_train "numeroCourse" false;;
   list_pdp <- get_value json_train "listePointDeParcours" false;;
   list_pdp <- pdp_list list_pdp;;
   let pdps := _retrieve_interesting_pdp list_pdp in
   match pdps with
   | [] => Raise (InvalidArguments (NoValidStopTime json_train))
   | first :: _ =>
       depart <- get_value (JObj first) "horaireVoyageurDepart" false;;
       str_time_start <- get_value depart "dateHeure" false;;
       vj_start <- parser_parse str_time_start;;
       arrivee <- get_value (JObj (last pdps first)) "horaireVoyageurArrivee" false;;
       str_time_end <- get_value arrivee "dateHeure" false;;
       vj_end <- parser_parse str_time_end;;
       _get_navitia_vjs train_numbers vj_start vj_end
   end)%result.

(** [_record_and_log(logger, log_str)] *)
Definition _record_and_log (d : diag) : M unit := ([d], Ok tt).

(** [_get_navitia_stop_time(pdp, nav_vj)] *)
Definition _get_navitia_stop_time (pdp : json) (nav_vj : VJ)
  : result (option obj * option string) :=
  (cr <- get_value pdp "cr" false;;
   ci <- get_value pdp "ci" false;;
   ch <- get_value pdp "ch" false;;
   Ok (get_navitia_stop_time_sncf cr ci ch nav_vj))%result.

(** The body of [for arrival_departure_toggle in ['Arrivee', 'Depart']]:
    what one direction of [pdp] does to [st_update]. *)
Definition direction_body (pdp : json) (arrival_departure_toggle : toggle)
           (st_update : StopTimeUpdate) : M StopTimeUpdate :=
  cots_traveler_time <~
    lift (get_value pdp (horaireVoyageur arrival_departure_toggle) true);;
  if is_none cots_traveler_time then ret st_update
  else
    cots_stop_time_status <~
      lift (get_value cots_traveler_time "statutCirculationOPE" true);;
    if is_none cots_stop_time_status then
      cots_ref_planned <~
        lift (get_value pdp
                (sourceHoraireProjeteReference arrival_departure_toggle) true);;
      cots_planned_stop_times <~
        lift (get_value pdp (listeHoraireProjete arrival_departure_toggle) true);;
      cots_planned_stop_time <~
        lift (_retrieve_projected_time cots_ref_planned cots_planned_stop_times);;
      if is_none cots_planned_stop_time then ret st_update
      else
        cots_delay <~ lift (get_value cots_planned_stop_time "pronosticIV" true);;
        if is_none cots_delay then ret st_update
        else
          d <~ lift (as_duration cots_delay);;
          ret (set_delay arrival_departure_toggle d
                 (set_status arrival_departure_toggle update st_update))
    else if py_eq cots_stop_time_status (JStr "SUPPRESSION") then
      ret (set_status arrival_departure_toggle delete st_update)
    else if py_eq cots_stop_time_status (JStr "SUPPRESSION_DETOURNEMENT") then
      _record_and_log (StopNotHandledCompletely cots_stop_time_status);;;
      ret (set_status arrival_departure_toggle delete st_update)
    else if py_eq cots_stop_time_status (JStr "CREATION") then
      _record_and_log (StopNotHandled cots_stop_time_status);;;
      ret st_update
    else if py_eq cots_stop_time_status (JStr "DETOURNEMENT") then
      _record_and_log (StopNotHandled cots_stop_time_status);;;
      ret st_update
    else
      raise (InvalidArguments
               (InvalidStatus cots_stop_time_status arrival_departure_toggle)).

(** The body of [for pdp in pdps]: the stop-time updates of the trip
    after [pdp], given those before it. *)
Definition pdp_body (v : VJ) (pdp : obj) (stus : list StopTimeUpdate)
  : M (list StopTimeUpdate) :=
  found <~ lift (_get_navitia_stop_time (JObj pdp) v);;
  let '(nav_st, log_dict) := found in
  match log_dict with
  | Some log => _record_and_log (StopTimeLog log)
  | None => ret tt
  end;;;
  match nav_st with
  | None => ret stus
  | Some nav_st =>
      let nav_stop := dict_get_default nav_st "stop_point" (JObj []) in
      let st_update := new_StopTimeUpdate nav_stop in
      st_message_id <~
        lift (get_value (JObj pdp) "idMotifInterneDepartReference" true);;
      st_message_id <~
        (if negb (truthy st_message_id)
         then lift (get_value (JObj pdp) "idMotifInterneArriveeReference" true)
         else ret st_message_id);;
      let st_update :=
        if truthy st_message_id
        then set_st_message (get_message st_message_id) st_update
        else st_update in
      st_update <~
        for_each (direction_body (JObj pdp)) [Arrivee; Depart] st_update;;
      ret (stus ++ [st_update])
  end.

(** [_make_trip_update(vj, json_train)] *)
Definition _make_trip_update (v : VJ) (json_train : json) : M TripUpdate :=
  let trip_update := set_contributor contributor (new_TripUpdate v) in
  trip_message_id <~ lift (get_value json_train "idMotifInterneReference" true);;
  let trip_update :=
    if truthy trip_message_id
    then set_message (get_message trip_message_id) trip_update
    else trip_update in
  trip_status <~ lift (get_value json_train "statutOperationnel" false);;
  if py_eq trip_status (JStr "SUPPRIMEE") then
    ret (set_stop_time_updates [] (set_tu_status delete trip_update))
  else if py_eq trip_status (JStr "AJOUTEE") then
    _record_and_log TripNotHandled;;;
    ret trip_update
  else
    let trip_update := set_tu_status update trip_update in
    list_pdp <~ lift (get_value json_train "listePointDeParcours" false);;
    list_pdp <~ lift (pdp_list list_pdp);;
    let pdps := _retrieve_interesting_pdp list_pdp in
    stus <~ for_each (pdp_body v) pdps (stop_time_updates trip_update);;
    ret (set_stop_time_updates stus trip_update).

(** [build(rt_update)], from the raw text of the update. *)
Definition build (raw_data : string) : M (list TripUpdate) :=
  match ujson_loads raw_data with
  | None => raise (InvalidArguments InvalidJson)
  | Some json =>
      present <~ lift (py_contains "nouvelleVersion" json);;
      if negb present then raise (InvalidArguments NoNouvelleVersion)
      else
        dict_version <~ lift (get_value json "nouvelleVersion" false);;
        vjs <~ lift (_get_vjs dict_version);;
        map_M (fun v => _make_trip_update v dict_version) vjs
  end.

End Builder.

(** ** Definitions used to state the properties *)

(** A station with an arrival time-block somewhere in [l]: the look-ahead
    of the filter, on a list rather than on an index. *)
Definition following_arrival (l : list obj) : bool :=
  existsb (fun follow_pdp => has_arrivee follow_pdp && is_station follow_pdp) l.

(** The filter by recursion on the points still to visit; [l] is the slice
    the look-ahead sees.  [pdp_loop_filter_from] relates it to the loop. *)
Fixpoint filter_from (picked_one : bool) (l : list obj) : list obj :=
  match l with
  | [] => []
  | pdp :: l' =>
      if negb picked_one && negb (has_depart pdp) then filter_from picked_one l'
      else if negb (is_station pdp) then filter_from picked_one l'
      else if negb (has_depart pdp) && negb (has_arrivee pdp)
      then filter_from picked_one l'
      else if negb (has_arrivee pdp) && negb (following_arrival l) then []
      else pdp :: filter_from true l'
  end.

(** What every output of the filter looks like: stations with a
    time-block, and a last point one can alight at. *)
Definition kept_point (pdp : obj) : bool :=
  is_station pdp && (has_depart pdp || has_arrivee pdp).

Definition ends_with_arrival (r : list obj) : Prop :=
  match r with
  | [] => True
  | p :: r' => has_arrivee (last r' p) = true
  end.

(** [s is not None and s == source_ref] for the candidate [c]. *)
Definition source_matches (source_ref : json) (c : obj) : bool :=
  negb (is_none (get_nullable c "source")) &&
  py_eq (get_nullable c "source") source_ref.

(** The status codes the classifier knows. *)
Definition known_status (code : json) : bool :=
  py_in code [JStr "SUPPRESSION"; JStr "SUPPRESSION_DETOURNEMENT";
              JStr "CREATION"; JStr "DETOURNEMENT"].

Definition other (t : toggle) : toggle :=
  match t with Arrivee => Depart | Depart => Arrivee end.

(** The message of a trip update: the cause message of the trip's
    reference, when the feed gives one. *)
Definition trip_message (get_message : json -> option string)
           (json_train : json) : option string :=
  match get_value json_train "idMotifInterneReference" true with
  | Ok id => if truthy id then get_message id else None
  | Raise _ => None
  end.

(** [r] is [l] with some of its items left out, the others in order. *)
Inductive subseq {A : Type} : list A -> list A -> Prop :=
| subseq_nil : subseq [] []
| subseq_skip (x : A) (r l : list A) : subseq r l -> subseq r (x :: l)
| subseq_keep (x : A) (r l : list A) : subseq r l -> subseq (x :: r) (x :: l).

(** The message of a stop: the cause message of the departure reference
    when the point has one, of the arrival reference otherwise. *)
Definition stop_message (get_message : json -> option string) (pdp : obj)
  : option string :=
  let depart_id := get_nullable pdp "idMotifInterneDepartReference" in
  let id := if truthy depart_id then depart_id
            else get_nullable pdp "idMotifInterneArriveeReference" in
  if truthy id then get_message id else None.

(** The stop the lookup finds for a point, if it finds one and the point
    has its identifying triple. *)
Definition matched_stop {VJ : Type}
           (get_navitia_stop_time_sncf :
              json -> json -> json -> VJ -> option obj * option string)
           (v : VJ) (pdp : obj) : list json :=
  match _get_navitia_stop_time VJ get_navitia_stop_time_sncf (JObj pdp) v with
  | Ok (Some nav_st, _) => [dict_get_default nav_st "stop_point" (JObj [])]
  | _ => []
  end.

(** The status [_make_trip_update] gives a trip with this
    [statutOperationnel]. *)
Definition trip_status_of (trip_status : json) : status :=
  if py_eq trip_status (JStr "SUPPRIMEE") then delete
  else if py_eq trip_status (JStr "AJOUTEE") then unset
  else update.

(** The diagnostic of a stop lookup, if it gave one. *)
Definition lookup_log (log_dict : option string) : list diag :=
  match log_dict with Some log => [StopTimeLog log] | None => [] end.

(** The invariant of a StopTimeUpdate, per direction. *)
Definition delay_consistent (st : StopTimeUpdate) : Prop :=
  forall t : toggle,
    (status_of t st = update -> delay_of t st <> None) /\
    (status_of t st = delete -> delay_of t st = None).

(** ** Sample feeds and collaborators *)

Module Sample.

(** A time-block of the feed, without and with a circulation status. *)
Definition time_block (date : string) : json :=
  JObj [("dateHeure", JStr date)].

Definition coded_block (date code : string) : json :=
  JObj [("dateHeure", JStr date); ("statutCirculationOPE", JStr code)].

(** A circulation point: its identifying triple, then its other fields. *)
Definition point (cr : string) (fields : obj) : obj :=
  ("cr", JStr cr) :: ("ci", JStr "0") :: ("ch", JStr "BV") :: fields.

Definition origin : obj :=
  point "A" [("horaireVoyageurDepart", time_block "2015-09-21T15:21:00")].

Definition terminus : obj :=
  point "Z" [("horaireVoyageurArrivee", time_block "2015-09-21T17:51:00")].

(** An intermediate station with both time-blocks. *)
Definition halt : obj :=
  point "H" [("horaireVoyageurArrivee", time_block "2015-09-21T16:00:00");
             ("horaireVoyageurDepart", time_block "2015-09-21T16:02:00")].

(** A point that is not a station, with a departure time-block only. *)
Definition siding : obj :=
  point "S" [("typeArret", JStr "XX");
             ("horaireVoyageurDepart", time_block "2015-09-21T16:30:00")].

(** A station whose time-blocks carry no [dateHeure]. *)
Definition undated : obj :=
  point "U" [("horaireVoyageurDepart", JObj [("statutCirculationOPE", JStr "SUPPRESSION")]);
             ("horaireVoyageurArrivee", JObj [("statutCirculationOPE", JStr "SUPPRESSION")])].

Definition feed (train status : string) (points : list obj) : json :=
  JObj [("numeroCourse", JStr train);
        ("statutOperationnel", JStr status);
        ("listePointDeParcours", JArr (map JObj points))].

(** Collaborators: one known trip instance, every stop known to it, no
    cause message, dates kept as their text. *)
Definition VJ : Type := string.
Definition DateTime : Type := string.

Definition get_message (_ : json) : option string := None.

Definition stop_time (cr ci ch : json) (_ : VJ) : option obj * option string :=
  (Some [("stop_point", JObj [("id", cr)])], None).

Definition navitia_vjs (_ : json) (_ _ : DateTime) : result (list VJ) :=
  Ok ["vj:96231"].

Definition parse (v : json) : result DateTime :=
  match v with JStr s => Ok s | _ => Raise TypeError end.

(** Projected-time candidates of two sources. *)
Definition cand_gmao : obj :=
  [("source", JStr "GMAO"); ("pronosticIV", JNum 300)].

Definition cand_escale : obj :=
  [("source", JStr "ESCALE"); ("pronosticIV", JNum 900)].

(** A station leaving 900 seconds late: no circulation status, one
    projected departure time without a source. *)
Definition delayed_origin : obj :=
  point "A" [("horaireVoyageurDepart", time_block "2015-09-21T15:21:00");
             ("listeHoraireProjeteDepart", JArr [JObj [("pronosticIV", JNum 900)]])].

(** The same station with the projected departure time put inside the
    departure time-block. *)
Definition nested_origin : obj :=
  point "A" [("horaireVoyageurDepart",
              JObj [("dateHeure", JStr "2015-09-21T15:21:00");
                    ("listeHoraireProjeteDepart",
                     JArr [JObj [("pronosticIV", JNum 900)]])])].

(** A station whose departure carries a status code the classifier does
    not know. *)
Definition odd_origin : obj :=
  point "A" [("horaireVoyageurDepart", coded_block "2015-09-21T15:21:00" "FOO")].

(** An intermediate station that is not served any more. *)
Definition suppressed_halt : obj :=
  point "H" [("horaireVoyageurArrivee", coded_block "2015-09-21T16:00:00" "SUPPRESSION");
             ("horaireVoyageurDepart", coded_block "2015-09-21T16:02:00" "SUPPRESSION")].

(** Four messages about train 96231: cancelled, with the unknown status
    code at its first stop; running, with that code; added; and running
    late, with an intermediate stop not served. *)
Definition cancelled : json := feed "96231" "SUPPRIMEE" [odd_origin; terminus].

Definition odd : json := feed "96231" "PERTURBEE" [odd_origin; terminus].

Definition added : json := feed "96231" "AJOUTEE" [origin; terminus].

Definition disrupted : json :=
  feed "96231" "PERTURBEE" [delayed_origin; suppressed_halt; terminus].

(** What the builder is expected to return for [disrupted]. *)
Definition disrupted_stops : list StopTimeUpdate :=
  [mk_StopTimeUpdate (JObj [("id", JStr "A")]) None unset update
     None (Some (mk_timedelta 0 900));
   mk_StopTimeUpdate (JObj [("id", JStr "H")]) None delete delete None None;
   mk_StopTimeUpdate (JObj [("id", JStr "Z")]) None unset unset None None].

Definition document (json_train : json) : json :=
  JObj [("nouvelleVersion", json_train)].

(** [ujson.loads] on the texts of two sample messages, which are named
    here rather than spelled out. *)
Definition loads (raw_data : string) : option json :=
  if String.eqb raw_data "cancelled" then Some (document cancelled)
  else if String.eqb raw_data "odd" then Some (document odd)
  else None.

(** A stop lookup that does not know the intermediate station. *)
Definition sparse_stop_time (cr ci ch : json) (v : VJ)
  : option obj * option string :=
  if py_eq cr (JStr "H") then (None, Some "missing stop point")
  else stop_time cr ci ch v.

(** The builder with these collaborators and no contributor. *)
Definition get_vjs : json -> result (list VJ) :=
  _get_vjs VJ DateTime navitia_vjs parse.

Definition make_trip_update : VJ -> json -> M (TripUpdate VJ) :=
  _make_trip_update VJ None get_message stop_time.

Definition build_updates : string -> M (list (TripUpdate VJ)) :=
  build VJ DateTime None get_message stop_time navitia_vjs parse loads.


End Sample.

(** ** The filter against its recursive form *)

Lemma get_value_nullable (pdp : obj) (key : string) :
  get_value (JObj pdp) key true = Ok (get_nullable pdp key).
Proof.
  unfold get_value, get_nullable. now rewrite andb_false_r.
Qed.

Lemma get_value_required (pdp : obj) (key : string) :
  truthy (get_nullable pdp key) = true ->
  get_value (JObj pdp) key false = Ok (get_nullable pdp key) /\
  get_nullable pdp key <> JNull.
Proof.
  unfold get_value, get_nullable. intros H.
  destruct (dict_get pdp key); simpl in *; try discriminate; split; congruence.
Qed.

Lemma pdp_loop_filter_from (list_pdp : list obj) :
  forall (l : list obj) (idx : nat) (picked_one : bool) (res : list obj),
    skipn idx list_pdp = l ->
    pdp_loop list_pdp (enumerate_from idx l) picked_one res
    = res ++ filter_from picked_one l.
Proof.
  induction l as [| pdp l' IH]; intros idx picked_one res Hskip;
    cbn [pdp_loop enumerate_from filter_from].
  - now rewrite app_nil_r.
  - assert (Hnext : skipn (S idx) list_pdp = l').
    { replace (S idx) with (1 + idx)%nat by lia.
      rewrite <- skipn_skipn, Hskip. reflexivity. }
    unfold has_following_arrival. rewrite Hskip.
    fold (following_arrival (pdp :: l')).
    destruct (negb picked_one && negb (has_depart pdp)); [now apply IH |].
    destruct (negb (is_station pdp)); [now apply IH |].
    destruct (negb (has_depart pdp) && negb (has_arrivee pdp)); [now apply IH |].
    destruct (negb (has_arrivee pdp) && negb (following_arrival (pdp :: l'))).
    + now rewrite app_nil_r.
    + rewrite (IH (S idx) true (res ++ [pdp]) Hnext).
      now rewrite <- app_assoc.
Qed.

Lemma retrieve_filter_from (list_pdp : list obj) :
  _retrieve_interesting_pdp list_pdp = filter_from false list_pdp.
Proof.
  unfold _retrieve_interesting_pdp.
  now rewrite (pdp_loop_filter_from list_pdp list_pdp 0 false []).
Qed.

(** ** Shape of the filter's output *)

Lemma filter_from_kept (l : list obj) :
  forall picked_one, forallb kept_point (filter_from picked_one l) = true.
Proof.
  induction l as [| pdp l' IH]; intros picked_one; cbn [filter_from]; [reflexivity |].
  destruct (negb picked_one && negb (has_depart pdp)); [apply IH |].
  destruct (is_station pdp) eqn:Hst; cbn [negb]; [| apply IH].
  destruct (negb (has_depart pdp) && negb (has_arrivee pdp)) eqn:Hempty; [apply IH |].
  destruct (negb (has_arrivee pdp) && negb (following_arrival (pdp :: l')));
    [reflexivity |].
  cbn [forallb]. rewrite IH, andb_true_r. unfold kept_point. rewrite Hst.
  destruct (has_depart pdp), (has_arrivee pdp); simpl in *; congruence.
Qed.

Lemma filter_from_head (l : list obj) (p : obj) (r : list obj) :
  filter_from false l = p :: r -> has_depart p = true.
Proof.
  induction l as [| pdp l' IH]; cbn [filter_from]; [discriminate |].
  destruct (has_depart pdp) eqn:Hdep; cbn [negb andb]; [| exact IH].
  destruct (negb (is_station pdp)); [exact IH |].
  destruct (negb (has_arrivee pdp) && negb (following_arrival (pdp :: l')));
    [discriminate |].
  intros H. injection H as <- _. exact Hdep.
Qed.

Lemma following_arrival_cons (pdp : obj) (l : list obj) :
  following_arrival (pdp :: l)
  = (has_arrivee pdp && is_station pdp) || following_arrival l.
Proof. reflexivity. Qed.

Lemma following_arrival_app (l1 l2 : list obj) :
  following_arrival (l1 ++ l2) = following_arrival l1 || following_arrival l2.
Proof. unfold following_arrival. apply existsb_app. Qed.

(** Once a point is picked, a station with an arrival further down is
    reached: the loop cannot stop before it. *)
Lemma following_arrival_filter (l : list obj) :
  following_arrival l = true -> filter_from true l <> [].
Proof.
  induction l as [| pdp l' IH]; [discriminate |].
  rewrite following_arrival_cons. intros Hfol.
  cbn [filter_from negb andb].
  destruct (is_station pdp) eqn:Hst; cbn [negb].
  - destruct (has_arrivee pdp) eqn:Harr; cbn [negb andb] in *.
    + rewrite andb_false_r. discriminate.
    + cbn [orb] in Hfol. rewrite following_arrival_cons, Hfol, orb_true_r.
      cbn [andb negb]. rewrite andb_true_r.
      destruct (negb (has_depart pdp)); [now apply IH | discriminate].
  - rewrite andb_false_r in Hfol. now apply IH.
Qed.

Lemma last_cons {A} (r : list A) :
  forall p q : A, last (q :: r) p = last r q.
Proof.
  induction r as [| x r' IH]; intros p q; [reflexivity |].
  change (last (q :: x :: r') p) with (last (x :: r') p).
  now rewrite !IH.
Qed.

Lemma ends_with_arrival_cons (p : obj) (r : list obj) :
  (r = [] -> has_arrivee p = true) ->
  ends_with_arrival r -> ends_with_arrival (p :: r).
Proof.
  destruct r as [| q r']; cbn [ends_with_arrival]; intros Hp Hr.
  - now apply Hp.
  - now rewrite last_cons.
Qed.

Lemma filter_from_ends (l : list obj) :
  forall picked_one, ends_with_arrival (filter_from picked_one l).
Proof.
  induction l as [| pdp l' IH]; intros picked_one; cbn [filter_from]; [exact I |].
  destruct (negb picked_one && negb (has_depart pdp)); [apply IH |].
  destruct (negb (is_station pdp)); [apply IH |].
  destruct (negb (has_depart pdp) && negb (has_arrivee pdp)); [apply IH |].
  destruct (has_arrivee pdp) eqn:Harr; cbn [negb andb].
  - apply ends_with_arrival_cons; [intros _; exact Harr | apply IH].
  - destruct (following_arrival (pdp :: l')) eqn:Hfol; cbn [negb]; [| exact I].
    apply ends_with_arrival_cons; [| apply IH].
    intros Hnil. exfalso.
    rewrite following_arrival_cons, Harr in Hfol. cbn [andb orb] in Hfol.
    now apply (following_arrival_filter l').
Qed.

Lemma ends_with_arrival_following (p : obj) (r : list obj) :
  forallb kept_point (p :: r) = true ->
  ends_with_arrival (p :: r) ->
  following_arrival (p :: r) = true.
Proof.
  revert p. induction r as [| q r' IH]; intros p Hkept Hend.
  - cbn [ends_with_arrival last] in Hend.
    cbn [forallb] in Hkept. rewrite andb_true_r in Hkept.
    unfold kept_point in Hkept. apply andb_prop in Hkept as [Hst _].
    rewrite following_arrival_cons, Hend, Hst. reflexivity.
  - rewrite following_arrival_cons.
    cbn [forallb] in Hkept. apply andb_prop in Hkept as [_ Hkept].
    cbn [ends_with_arrival] in Hend. rewrite last_cons in Hend.
    rewrite (IH q Hkept Hend). apply orb_true_r.
Qed.

(** A list shaped like an output is left alone by the filter. *)
Lemma filter_from_fixed (r : list obj) :
  forall picked_one,
    forallb kept_point r = true ->
    ends_with_arrival r ->
    (picked_one = true \/ match r with [] => True | p :: _ => has_depart p = true end) ->
    filter_from picked_one r = r.
Proof.
  induction r as [| p r' IH]; intros picked_one Hkept Hend Hstart; [reflexivity |].
  pose proof (ends_with_arrival_following p r' Hkept Hend) as Hfol.
  cbn [filter_from]. rewrite Hfol.
  cbn [forallb] in Hkept. apply andb_prop in Hkept as [Hp Hkept'].
  unfold kept_point in Hp. apply andb_prop in Hp as [Hst Htime].
  rewrite Hst. cbn [negb]. rewrite andb_false_r.
  assert (H1 : negb picked_one && negb (has_depart p) = false).
  { destruct Hstart as [-> | ->]; [reflexivity | apply andb_false_r]. }
  rewrite H1.
  assert (H2 : negb (has_depart p) && negb (has_arrivee p) = false).
  { destruct (has_depart p), (has_arrivee p); simpl in *; congruence. }
  rewrite H2. f_equal. apply IH; [exact Hkept' | | now left].
  destruct r' as [| q r'']; [exact I |].
  cbn [ends_with_arrival] in *. now rewrite last_cons in Hend.
Qed.

(** ** Properties of [_retrieve_interesting_pdp] *)

(** C6. The stop relevance filter is idempotent: filtering its own output
    gives that output back. *)
Theorem retrieve_interesting_pdp_idempotent (list_pdp : list obj) :
  _retrieve_interesting_pdp (_retrieve_interesting_pdp list_pdp)
  = _retrieve_interesting_pdp list_pdp.
Proof.
  rewrite !retrieve_filter_from.
  apply filter_from_fixed.
  - apply filter_from_kept.
  - apply filter_from_ends.
  - right. destruct (filter_from false list_pdp) as [| p r] eqn:Hr; [exact I |].
    now apply (filter_from_head list_pdp p r).
Qed.

Lemma skipn_S_cons {A} (list_pdp : list A) (idx : nat) (x : A) (l : list A) :
  skipn idx list_pdp = x :: l -> skipn (S idx) list_pdp = l.
Proof.
  intros H. replace (S idx) with (1 + idx)%nat by lia.
  now rewrite <- skipn_skipn, H.
Qed.

Lemma filter_from_no_arrival (l : list obj) :
  forall picked_one, following_arrival l = false -> filter_from picked_one l = [].
Proof.
  induction l as [| q l' IH]; intros picked_one Hfol; [reflexivity |].
  cbn [filter_from]. rewrite Hfol.
  rewrite following_arrival_cons in Hfol.
  apply orb_false_elim in Hfol as [Hq Hfol'].
  destruct (negb picked_one && negb (has_depart q)); [now apply IH |].
  destruct (is_station q) eqn:Hst; cbn [negb]; [| now apply IH].
  destruct (negb (has_depart q) && negb (has_arrivee q)); [now apply IH |].
  rewrite andb_true_r in Hq. rewrite Hq. reflexivity.
Qed.

Lemma filter_from_no_depart (l : list obj) :
  (forall p, In p l -> has_depart p = false) -> filter_from false l = [].
Proof.
  induction l as [| q l' IH]; intros Hno; [reflexivity |].
  cbn [filter_from]. rewrite (Hno q (or_introl eq_refl)). cbn [negb andb].
  apply IH. intros p Hp. apply Hno. now right.
Qed.

Section Lookahead.

Variable list_pdp : list obj.

(** While a station with an arrival lies ahead, the loop does not stop:
    it visits the points before [pdp], keeps [pdp], and goes on. *)
Lemma pdp_loop_keeps (pdp : obj) (post : list obj) :
  is_station pdp = true -> has_depart pdp = true ->
  following_arrival post = true ->
  forall (pre : list obj) (idx : nat) (picked_one : bool) (res : list obj),
    skipn idx list_pdp = pre ++ pdp :: post ->
    pdp_loop list_pdp (enumerate_from idx (pre ++ pdp :: post)) picked_one res
    = pdp_loop list_pdp (enumerate_from idx pre) picked_one res
      ++ pdp :: filter_from true post.
Proof.
  intros Hst Hdep Hfol.
  assert (Hahead : forall idx l, skipn idx list_pdp = l ++ pdp :: post ->
                                 has_following_arrival list_pdp idx = true).
  { intros idx l Hskip. unfold has_following_arrival. rewrite Hskip.
    fold (following_arrival (l ++ pdp :: post)).
    rewrite following_arrival_app, following_arrival_cons, Hfol.
    now rewrite !orb_true_r. }
  induction pre as [| q pre' IH]; intros idx picked_one res Hskip.
  - cbn [app enumerate_from pdp_loop].
    rewrite (Hahead idx [] Hskip), Hst, Hdep.
    cbn [negb]. rewrite !andb_false_r. cbn [andb].
    rewrite (pdp_loop_filter_from list_pdp post (S idx) true (res ++ [pdp])
               (skipn_S_cons _ _ _ _ Hskip)).
    now rewrite <- app_assoc.
  - cbn [app enumerate_from pdp_loop].
    pose proof (skipn_S_cons _ _ _ _ Hskip) as Hnext.
    rewrite (Hahead idx (q :: pre') Hskip).
    cbn [negb]. rewrite andb_false_r.
    destruct (negb picked_one && negb (has_depart q)); [now apply IH |].
    destruct (negb (is_station q)); [now apply IH |].
    destruct (negb (has_depart q) && negb (has_arrivee q)); now apply IH.
Qed.

(** With no station with an arrival among the points of [post], none of
    them is visited to any effect: the result is what the loop had
    collected before them. *)
Lemma pdp_loop_drops (post : list obj) :
  following_arrival post = false ->
  forall (pre : list obj) (idx : nat) (picked_one : bool) (res : list obj),
    skipn idx list_pdp = pre ++ post ->
    pdp_loop list_pdp (enumerate_from idx (pre ++ post)) picked_one res
    = pdp_loop list_pdp (enumerate_from idx pre) picked_one res.
Proof.
  intros Hfol.
  induction pre as [| q pre' IH]; intros idx picked_one res Hskip.
  - cbn [app enumerate_from pdp_loop].
    rewrite (pdp_loop_filter_from list_pdp post idx picked_one res Hskip).
    rewrite (filter_from_no_arrival post picked_one Hfol).
    apply app_nil_r.
  - cbn [app enumerate_from pdp_loop].
    pose proof (skipn_S_cons _ _ _ _ Hskip) as Hnext.
    destruct (negb picked_one && negb (has_depart q)); [now apply IH |].
    destruct (negb (is_station q)); [now apply IH |].
    destruct (negb (has_depart q) && negb (has_arrivee q)); [now apply IH |].
    destruct (negb (has_arrivee q) && negb (has_following_arrival list_pdp idx));
      [reflexivity | now apply IH].
Qed.

End Lookahead.

(** C5, amended.  A station point with a departure time-block and no
    arrival time-block is kept when a station further down the original
    list has an arrival time-block: the output is what the loop collected
    from the points before it, then the point, then the filter continued
    on the points after it.  When no station after it has an arrival
    time-block the pass stops there: the output is what the loop collected
    from the points before it, so the point and all the remaining ones are
    discarded.  More generally the points of a tail of the list without a
    station with an arrival time-block never reach the output, whatever
    their departure time-blocks. *)
Theorem departure_only_station_kept_unless_no_arrival_follows
        (pre post : list obj) (pdp : obj) :
  is_station pdp = true ->
  has_depart pdp = true ->
  has_arrivee pdp = false ->
  let list_pdp := pre ++ pdp :: post in
  let before := pdp_loop list_pdp (enumerate_from 0 pre) false [] in
  (following_arrival post = true ->
   _retrieve_interesting_pdp list_pdp = before ++ pdp :: filter_from true post) /\
  (following_arrival post = false ->
   _retrieve_interesting_pdp list_pdp = before) /\
  (forall head tail : list obj,
      following_arrival tail = false ->
      _retrieve_interesting_pdp (head ++ tail)
      = pdp_loop (head ++ tail) (enumerate_from 0 head) false []).
Proof.
  intros Hst Hdep Harr list_pdp before. unfold _retrieve_interesting_pdp.
  split; [| split].
  - intros Hfol. subst before list_pdp.
    now apply pdp_loop_keeps.
  - intros Hfol. subst before list_pdp.
    change (pre ++ pdp :: post) with (pre ++ [pdp] ++ post).
    apply pdp_loop_drops; [| reflexivity].
    cbn [app]. rewrite following_arrival_cons, Harr, Hfol. reflexivity.
  - intros head tail Hfol. now apply pdp_loop_drops.
Qed.

(** ** Properties of [_get_vjs] and [build] *)

Lemma as_dicts_map (l : list obj) : as_dicts (map JObj l) = Some l.
Proof.
  induction l as [| p l' IH]; [reflexivity |].
  cbn [map as_dicts]. now rewrite IH.
Qed.

Lemma pdp_list_array (l : list obj) : pdp_list (JArr (map JObj l)) = Ok l.
Proof. unfold pdp_list. now rewrite as_dicts_map. Qed.

Lemma get_value_ok_contains (doc v : json) (key : string) :
  get_value doc key false = Ok v -> py_contains key doc = Ok true.
Proof.
  destruct doc; try discriminate. unfold get_value, py_contains, dict_get.
  destruct (lookup fields key); [reflexivity | discriminate].
Qed.

Section BuilderFacts.

Variable VJ : Type.
Variable DateTime : Type.
Variable contributor : option string.
Variable get_message : json -> option string.
Variable get_navitia_stop_time_sncf :
  json -> json -> json -> VJ -> option obj * option string.
Variable _get_navitia_vjs : json -> DateTime -> DateTime -> result (list VJ).
Variable parser_parse : json -> result DateTime.
Variable ujson_loads : string -> option json.

Let get_vjs := _get_vjs VJ DateTime _get_navitia_vjs parser_parse.
Let make_trip_update :=
  _make_trip_update VJ contributor get_message get_navitia_stop_time_sncf.
Let build_updates :=
  build VJ DateTime contributor get_message get_navitia_stop_time_sncf
        _get_navitia_vjs parser_parse ujson_loads.

(** C7. When no point of the list has a departure time-block the filter
    returns the empty list, and the builder rejects the message with
    [InvalidArguments]: [_get_vjs] raises it, for the empty list of
    relevant stops as soon as the train number is there, and so does
    [build], returning no TripUpdate. *)
Theorem no_departure_invalid_feed (list_pdp : list obj) :
  (forall pdp, In pdp list_pdp -> has_depart pdp = false) ->
  _retrieve_interesting_pdp list_pdp = [] /\
  forall json_train : json,
    get_value json_train "listePointDeParcours" false
    = Ok (JArr (map JObj list_pdp)) ->
    (exists why, get_vjs json_train = Raise (InvalidArguments why)) /\
    (forall train_numbers,
        get_value json_train "numeroCourse" false = Ok train_numbers ->
        get_vjs json_train
        = Raise (InvalidArguments (NoValidStopTime json_train))) /\
    (forall (raw_data : string) (doc : json),
        ujson_loads raw_data = Some doc ->
        get_value doc "nouvelleVersion" false = Ok json_train ->
        exists why, build_updates raw_data = ([], Raise (InvalidArguments why))).
Proof.
  intros Hno.
  assert (Hempty : _retrieve_interesting_pdp list_pdp = []).
  { rewrite retrieve_filter_from. now apply filter_from_no_depart. }
  split; [exact Hempty |].
  intros json_train Hlist.
  assert (Hnumber : forall train_numbers,
             get_value json_train "numeroCourse" false = Ok train_numbers ->
             get_vjs json_train
             = Raise (InvalidArguments (NoValidStopTime json_train))).
  { intros train_numbers Hnum. subst get_vjs. unfold _get_vjs.
    rewrite Hnum. cbn [rbind]. rewrite Hlist. cbn [rbind].
    rewrite pdp_list_array. cbn [rbind]. now rewrite Hempty. }
  assert (Hfail : exists why, get_vjs json_train = Raise (InvalidArguments why)).
  { destruct (get_value json_train "numeroCourse" false) as [tn | e] eqn:Hnum.
    - eexists. now apply (Hnumber tn).
    - subst get_vjs. unfold _get_vjs. rewrite Hnum. cbn [rbind].
      destruct json_train; try discriminate.
      unfold get_value in Hnum.
      destruct (is_none (dict_get fields "numeroCourse") && negb false);
        [| discriminate].
      injection Hnum as <-. eexists. reflexivity. }
  split; [exact Hfail |]. split; [exact Hnumber |].
  intros raw_data doc Hloads Hversion.
  destruct Hfail as [why Hwhy]. exists why.
  subst build_updates. unfold build. rewrite Hloads.
  rewrite (get_value_ok_contains doc json_train _ Hversion).
  unfold lift, bind. cbn [negb]. rewrite Hversion.
  fold get_vjs. rewrite Hwhy. reflexivity.
Qed.

(** C10, amended.  When the filter returns a non-empty list its first
    point has a non-null departure time-block and its last point a
    non-null arrival time-block, so the two required time-block lookups
    of [_get_vjs] return them; what is left of [_get_vjs] after the
    emptiness check is the lookup of [dateHeure] in each of the two
    blocks, the parsing of the two dates and the trip lookup. *)
Theorem get_vjs_time_blocks_present
        (list_pdp : list obj) (first : obj) (rest : list obj) :
  _retrieve_interesting_pdp list_pdp = first :: rest ->
  let final := last (first :: rest) first in
  let depart := get_nullable first "horaireVoyageurDepart" in
  let arrivee := get_nullable final "horaireVoyageurArrivee" in
  (get_value (JObj first) "horaireVoyageurDepart" false = Ok depart /\
   depart <> JNull) /\
  (get_value (JObj final) "horaireVoyageurArrivee" false = Ok arrivee /\
   arrivee <> JNull) /\
  (forall json_train train_numbers list_value : json,
      get_value json_train "numeroCourse" false = Ok train_numbers ->
      get_value json_train "listePointDeParcours" false = Ok list_value ->
      pdp_list list_value = Ok list_pdp ->
      get_vjs json_train
      = (str_time_start <- get_value depart "dateHeure" false;;
         vj_start <- parser_parse str_time_start;;
         str_time_end <- get_value arrivee "dateHeure" false;;
         vj_end <- parser_parse str_time_end;;
         _get_navitia_vjs train_numbers vj_start vj_end)%result).
Proof.
  intros Hres final depart arrivee. subst arrivee depart final.
  assert (Hdep : has_depart first = true).
  { rewrite retrieve_filter_from in Hres.
    now apply (filter_from_head list_pdp first rest). }
  assert (Harr : has_arrivee (last (first :: rest) first) = true).
  { pose proof (filter_from_ends list_pdp false) as Hend.
    rewrite <- retrieve_filter_from, Hres in Hend.
    cbn [ends_with_arrival] in Hend. now rewrite last_cons. }
  pose proof (get_value_required first _ Hdep) as Hd.
  pose proof (get_value_required _ _ Harr) as Ha.
  split; [exact Hd |]. split; [exact Ha |].
  intros json_train train_numbers list_value Hnum Hlist Hpdps.
  subst get_vjs. unfold _get_vjs.
  rewrite Hnum. cbn [rbind]. rewrite Hlist. cbn [rbind].
  rewrite Hpdps. cbn [rbind]. rewrite Hres.
  destruct Hd as [Hd _]. rewrite Hd. cbn [rbind].
  destruct (get_value (get_nullable first "horaireVoyageurDepart") "dateHeure" false)
    as [str_time_start |]; [| reflexivity].
  cbn [rbind].
  destruct (parser_parse str_time_start); [| reflexivity]. cbn [rbind].
  destruct Ha as [Ha _]. rewrite Ha. reflexivity.
Qed.

(** *** Trip-level status *)

Lemma map_M_ok {A B} (f : A -> M B) (w : A -> list diag) (g : A -> B)
      (l : list A) :
  (forall x, f x = (w x, Ok (g x))) ->
  map_M f l = (flat_map w l, Ok (map g l)).
Proof.
  intros Hf. induction l as [| x l' IH]; [reflexivity |].
  cbn [map_M flat_map map]. rewrite Hf. unfold bind at 1.
  rewrite IH. unfold bind, ret. now rewrite app_nil_r.
Qed.

Lemma map_M_raise {A B} (f : A -> M B) (l : list A) (x : A) :
  In x l ->
  (exists w e, f x = (w, Raise e)) ->
  exists w e, map_M f l = (w, Raise e).
Proof.
  intros Hin Hx. induction l as [| y l' IH]; [contradiction |].
  cbn [map_M]. unfold bind at 1.
  destruct (f y) as [wy [b | e]] eqn:Hy.
  - destruct Hin as [-> | Hin].
    + destruct Hx as (w & e & Hx). congruence.
    + destruct (IH Hin) as (w & e & ->). unfold bind. eauto.
  - eauto.
Qed.

Lemma get_value_ok_dict (v r : json) (key : string) (nullable : bool) :
  get_value v key nullable = Ok r -> exists o, v = JObj o.
Proof. destruct v; try discriminate. eauto. Qed.

Lemma make_trip_update_deleted (v : VJ) (json_train : json) :
  get_value json_train "statutOperationnel" false = Ok (JStr "SUPPRIMEE") ->
  make_trip_update v json_train
  = ([], Ok (mk_TripUpdate VJ v contributor (trip_message get_message json_train) delete [])).
Proof.
  intros Hstatus. subst make_trip_update.
  unfold _make_trip_update, trip_message.
  destruct (get_value_ok_dict _ _ _ _ Hstatus) as [o ->].
  rewrite get_value_nullable. unfold lift, bind. rewrite Hstatus.
  cbn [py_eq String.eqb Ascii.eqb Bool.eqb ret app].
  now destruct (truthy (get_nullable o "idMotifInterneReference")).
Qed.

Lemma make_trip_update_added (v : VJ) (json_train : json) :
  get_value json_train "statutOperationnel" false = Ok (JStr "AJOUTEE") ->
  make_trip_update v json_train
  = ([TripNotHandled],
     Ok (mk_TripUpdate VJ v contributor (trip_message get_message json_train) unset [])).
Proof.
  intros Hstatus. subst make_trip_update.
  unfold _make_trip_update, trip_message.
  destruct (get_value_ok_dict _ _ _ _ Hstatus) as [o ->].
  rewrite get_value_nullable. unfold lift, bind. rewrite Hstatus.
  cbn [py_eq String.eqb Ascii.eqb Bool.eqb ret app _record_and_log].
  now destruct (truthy (get_nullable o "idMotifInterneReference")).
Qed.

Lemma build_decoded (raw_data : string) (doc json_train : json) :
  ujson_loads raw_data = Some doc ->
  get_value doc "nouvelleVersion" false = Ok json_train ->
  build_updates raw_data
  = bind (lift (get_vjs json_train))
         (fun vjs => map_M (fun v => make_trip_update v json_train) vjs).
Proof.
  intros Hloads Hversion. subst build_updates. unfold build.
  rewrite Hloads, (get_value_ok_contains doc json_train _ Hversion).
  unfold lift at 1. unfold bind at 1. cbn [negb app].
  unfold lift at 1. unfold bind at 1. rewrite Hversion. cbn [app].
  subst get_vjs make_trip_update.
  now destruct (bind _ _).
Qed.

(** C3. A message whose trip-level status is [SUPPRIMEE] gives, for each
    trip instance, a TripUpdate with status [delete] and an empty
    stop-time sequence, whatever the list of points holds: nothing of the
    points is read, no stop is looked up and no diagnostic is recorded.
    So every TripUpdate [build] produces for such a message is of that
    form. *)
Theorem suppressed_trip_deleted (json_train : json) :
  get_value json_train "statutOperationnel" false = Ok (JStr "SUPPRIMEE") ->
  (forall v : VJ,
      make_trip_update v json_train
      = ([], Ok (mk_TripUpdate VJ v contributor (trip_message get_message json_train)
                   delete []))) /\
  (forall (raw_data : string) (doc : json) (w : list diag)
          (trip_updates : list (TripUpdate VJ)),
      ujson_loads raw_data = Some doc ->
      get_value doc "nouvelleVersion" false = Ok json_train ->
      build_updates raw_data = (w, Ok trip_updates) ->
      w = [] /\
      Forall (fun tu => tu_status VJ tu = delete /\ stop_time_updates VJ tu = [])
             trip_updates).
Proof.
  intros Hstatus. split; [intros v; now apply make_trip_update_deleted |].
  intros raw_data doc w trip_updates Hloads Hversion Hbuild.
  rewrite (build_decoded _ _ _ Hloads Hversion) in Hbuild.
  unfold lift, bind in Hbuild.
  destruct (get_vjs json_train) as [vjs | e]; [| discriminate].
  rewrite (map_M_ok _ (fun _ => [])
             (fun v => mk_TripUpdate VJ v contributor (trip_message get_message json_train)
                         delete [])) in Hbuild
    by (intros v; now apply make_trip_update_deleted).
  injection Hbuild as <- <-. split.
  - cbn [app]. induction vjs; [reflexivity | assumption].
  - apply Forall_forall. intros tu Htu. apply in_map_iff in Htu as (v & <- & _).
    now split.
Qed.

(** C9. A message whose trip-level status is [AJOUTEE] is not an error:
    for each trip instance the builder records the diagnostic that the
    status is not handled and returns the TripUpdate as constructed, with
    no status assigned and no stop-time update.  So [build] returns, for
    the trip instances found, TripUpdates of that form, with one
    diagnostic each. *)
Theorem added_trip_not_handled (json_train : json) :
  get_value json_train "statutOperationnel" false = Ok (JStr "AJOUTEE") ->
  (forall v : VJ,
      make_trip_update v json_train
      = ([TripNotHandled],
         Ok (mk_TripUpdate VJ v contributor (trip_message get_message json_train)
               unset []))) /\
  (forall (raw_data : string) (doc : json) (vjs : list VJ),
      ujson_loads raw_data = Some doc ->
      get_value doc "nouvelleVersion" false = Ok json_train ->
      get_vjs json_train = Ok vjs ->
      exists trip_updates,
        build_updates raw_data
        = (map (fun _ => TripNotHandled) vjs, Ok trip_updates) /\
        List.length trip_updates = List.length vjs /\
        Forall (fun tu => tu_status VJ tu = unset /\ stop_time_updates VJ tu = [])
               trip_updates).
Proof.
  intros Hstatus. split; [intros v; now apply make_trip_update_added |].
  intros raw_data doc vjs Hloads Hversion Hvjs.
  rewrite (build_decoded _ _ _ Hloads Hversion), Hvjs.
  unfold lift, bind.
  rewrite (map_M_ok _ (fun _ => [TripNotHandled])
             (fun v => mk_TripUpdate VJ v contributor (trip_message get_message json_train)
                         unset []))
    by (intros v; now apply make_trip_update_added).
  assert (Hlog : forall l : list VJ,
             flat_map (fun _ => [TripNotHandled]) l
             = map (fun _ => TripNotHandled) l).
  { induction l as [| x l' IH]; [reflexivity |].
    cbn [flat_map map app]. now rewrite IH. }
  rewrite Hlog. cbn [app].
  eexists. split; [reflexivity |]. split.
  - apply length_map.
  - apply Forall_forall. intros tu Htu. apply in_map_iff in Htu as (v & <- & _).
    now split.
Qed.

(** *** Stop-level status, direction by direction *)

Lemma total_seconds_of_seconds (z : Z) :
  total_seconds (timedelta_of_seconds z) = z.
Proof.
  unfold total_seconds, timedelta_of_seconds. cbn [days seconds].
  pose proof (Z.div_mod z 86400). lia.
Qed.

Lemma set_direction_other (t : toggle) (s : status) (d : option timedelta)
      (st : StopTimeUpdate) :
  status_of (other t) (set_delay t d (set_status t s st)) = status_of (other t) st /\
  delay_of (other t) (set_delay t d (set_status t s st)) = delay_of (other t) st.
Proof. now destruct t. Qed.

Lemma set_direction_same (t : toggle) (s : status) (d : option timedelta)
      (st : StopTimeUpdate) :
  status_of t (set_delay t d (set_status t s st)) = s /\
  delay_of t (set_delay t d (set_status t s st)) = d.
Proof. now destruct t. Qed.

Lemma as_duration_in_range (z : Z) :
  (timestamp_min <= z <= timestamp_max)%Z ->
  as_duration (JNum z) = Ok (Some (timedelta_of_seconds z)).
Proof.
  intros [Hlo Hhi]. cbn [as_duration]. unfold utcfromtimestamp at 1.
  apply Z.leb_le in Hlo, Hhi. rewrite Hlo, Hhi. cbn [andb rbind].
  change (utcfromtimestamp 0) with (@Ok Z 0%Z). cbn [rbind].
  now rewrite Z.sub_0_r.
Qed.

Lemma as_duration_out_of_range (z : Z) :
  (z < timestamp_min \/ timestamp_max < z)%Z ->
  as_duration (JNum z) = Raise ValueError.
Proof.
  intros H. cbn [as_duration]. unfold utcfromtimestamp at 1.
  destruct (timestamp_min <=? z)%Z eqn:Hlo; [| reflexivity].
  destruct (z <=? timestamp_max)%Z eqn:Hhi; [| reflexivity].
  apply Z.leb_le in Hlo, Hhi. lia.
Qed.

(** C1, amended.  For a point and a direction whose time-block is there
    and carries no circulation status, the classifier resolves a
    projected time from the point's own source reference
    ([sourceHoraireProjete<Direction>Reference]) and candidate list
    ([listeHoraireProjete<Direction>]), fields of the circulation point
    and not of the time-block.  A failed resolution fails the direction;
    when it yields none, or a candidate whose [pronosticIV] is null, the
    StopTimeUpdate is left as it is; when [pronosticIV] is a whole number
    of seconds, negative or not, that [utcfromtimestamp] accepts, the
    direction's status becomes [update] and its delay the duration of that
    many seconds, the other direction being left alone; a whole number
    [utcfromtimestamp] does not accept fails the direction with
    [ValueError]. *)
Theorem direction_without_status_uses_point_candidates
        (pdp : obj) (t : toggle) (st : StopTimeUpdate) :
  let block := get_nullable pdp (horaireVoyageur t) in
  let resolved :=
    _retrieve_projected_time
      (get_nullable pdp (sourceHoraireProjeteReference t))
      (get_nullable pdp (listeHoraireProjete t)) in
  block <> JNull ->
  get_value block "statutCirculationOPE" true = Ok JNull ->
  (forall e, resolved = Raise e ->
             direction_body (JObj pdp) t st = ([], Raise e)) /\
  (resolved = Ok JNull -> direction_body (JObj pdp) t st = ([], Ok st)) /\
  (forall cand,
      resolved = Ok cand ->
      get_value cand "pronosticIV" true = Ok JNull ->
      direction_body (JObj pdp) t st = ([], Ok st)) /\
  (forall cand z,
      resolved = Ok cand ->
      get_value cand "pronosticIV" true = Ok (JNum z) ->
      (timestamp_min <= z <= timestamp_max)%Z ->
      let st' := set_delay t (Some (timedelta_of_seconds z))
                   (set_status t update st) in
      direction_body (JObj pdp) t st = ([], Ok st') /\
      status_of t st' = update /\
      delay_of t st' = Some (timedelta_of_seconds z) /\
      total_seconds (timedelta_of_seconds z) = z /\
      status_of (other t) st' = status_of (other t) st /\
      delay_of (other t) st' = delay_of (other t) st) /\
  (forall cand z,
      resolved = Ok cand ->
      get_value cand "pronosticIV" true = Ok (JNum z) ->
      (z < timestamp_min \/ timestamp_max < z)%Z ->
      direction_body (JObj pdp) t st = ([], Raise ValueError)).
Proof.
  intros block resolved Hblock Hcode.
  assert (Hstart :
            direction_body (JObj pdp) t st
            = bind (lift resolved)
                (fun cots_planned_stop_time =>
                   if is_none cots_planned_stop_time then ret st
                   else
                     bind (lift (get_value cots_planned_stop_time "pronosticIV" true))
                       (fun cots_delay =>
                          if is_none cots_delay then ret st
                          else
                            bind (lift (as_duration cots_delay))
                              (fun d => ret (set_delay t d (set_status t update st)))))).
  { unfold direction_body. rewrite !get_value_nullable.
    fold block. unfold lift at 1. unfold bind at 1.
    assert (Hsome : is_none block = false) by now destruct block.
    rewrite Hsome, Hcode. unfold lift at 1. unfold bind at 1.
    cbn [is_none]. unfold lift at 1. unfold bind at 1.
    unfold lift at 1. unfold bind at 1. fold resolved.
    now destruct (bind _ _). }
  rewrite Hstart. clear Hstart.
  split; [| split; [| split; [| split]]].
  - intros e ->. reflexivity.
  - intros ->. reflexivity.
  - intros cand -> Hdelay.
    destruct (get_value_ok_dict _ _ _ _ Hdelay) as [o ->].
    unfold lift, bind. cbn [is_none]. rewrite Hdelay. reflexivity.
  - intros cand z -> Hdelay Hrange st'.
    destruct (get_value_ok_dict _ _ _ _ Hdelay) as [o ->].
    split.
    + unfold lift, bind. cbn [is_none]. rewrite Hdelay. cbn [is_none].
      now rewrite (as_duration_in_range z Hrange).
    + subst st'.
      destruct (set_direction_same t update (Some (timedelta_of_seconds z)) st)
        as [Hs Hd].
      destruct (set_direction_other t update (Some (timedelta_of_seconds z)) st)
        as [Hos Hod].
      repeat split; auto using total_seconds_of_seconds.
  - intros cand z -> Hdelay Hrange.
    destruct (get_value_ok_dict _ _ _ _ Hdelay) as [o ->].
    unfold lift, bind. cbn [is_none]. rewrite Hdelay. cbn [is_none].
    now rewrite (as_duration_out_of_range z Hrange).
Qed.

Lemma as_duration_some (secs : json) (d : option timedelta) :
  is_none secs = false -> as_duration secs = Ok d -> exists td, d = Some td.
Proof.
  destruct secs; cbn [as_duration is_none]; try discriminate; intros _;
    unfold utcfromtimestamp, rbind;
    repeat match goal with
           | |- context [if ?c then _ else _] => destruct c
           end;
    try discriminate; intros H; injection H as <-; eauto.
Qed.

(** What one direction can do to a StopTimeUpdate when it does not
    raise: nothing, mark the direction deleted, or mark it updated with
    a delay. *)
Lemma direction_body_shape (pdp : json) (t : toggle) (st st' : StopTimeUpdate)
      (w : list diag) :
  direction_body pdp t st = (w, Ok st') ->
  st' = st \/
  st' = set_status t delete st \/
  exists td, st' = set_delay t (Some td) (set_status t update st).
Proof.
  unfold direction_body, lift, raise, ret, _record_and_log, bind.
  destruct (get_value pdp (horaireVoyageur t) true) as [block |]; [| discriminate].
  destruct (is_none block); [intros H; injection H as _ <-; now left |].
  destruct (get_value block "statutCirculationOPE" true) as [code |];
    [| discriminate].
  destruct (is_none code).
  - destruct (get_value pdp (sourceHoraireProjeteReference t) true) as [ref |];
      [| discriminate].
    destruct (get_value pdp (listeHoraireProjete t) true) as [lst |];
      [| discriminate].
    destruct (_retrieve_projected_time ref lst) as [cand |]; [| discriminate].
    destruct (is_none cand); [intros H; injection H as _ <-; now left |].
    destruct (get_value cand "pronosticIV" true) as [delay |]; [| discriminate].
    destruct (is_none delay) eqn:Hdelay; [intros H; injection H as _ <-; now left |].
    destruct (as_duration delay) as [d |] eqn:Hd; [| discriminate].
    destruct (as_duration_some _ _ Hdelay Hd) as [td ->].
    intros H; injection H as _ <-. right; right. now exists td.
  - destruct (py_eq code (JStr "SUPPRESSION"));
      [intros H; injection H as _ <-; right; now left |].
    destruct (py_eq code (JStr "SUPPRESSION_DETOURNEMENT"));
      [intros H; injection H as _ <-; right; now left |].
    destruct (py_eq code (JStr "CREATION"));
      [intros H; injection H as _ <-; now left |].
    destruct (py_eq code (JStr "DETOURNEMENT"));
      [intros H; injection H as _ <-; now left | discriminate].
Qed.

Lemma direction_shape_consistent (t : toggle) (st st' : StopTimeUpdate) :
  status_of t st = unset -> delay_of t st = None ->
  delay_consistent st ->
  (st' = st \/
   st' = set_status t delete st \/
   exists td, st' = set_delay t (Some td) (set_status t update st)) ->
  delay_consistent st' /\
  status_of (other t) st' = status_of (other t) st /\
  delay_of (other t) st' = delay_of (other t) st.
Proof.
  intros Hs Hd Hst Hshape. destruct st as [nav m sa sd da dd].
  destruct Hshape as [-> | [-> | [td ->]]]; (split; [| now destruct t]).
  - exact Hst.
  - intros u. specialize (Hst u).
    destruct t, u; cbn in *; subst; (split; [discriminate || tauto | tauto]).
  - intros u. specialize (Hst u).
    destruct t, u; cbn in *; subst;
      (split; [discriminate || tauto | discriminate || tauto]).
Qed.

Lemma fresh_consistent (st : StopTimeUpdate) :
  (forall t, status_of t st = unset /\ delay_of t st = None) ->
  delay_consistent st.
Proof.
  intros Hfresh t. destruct (Hfresh t) as [Hs Hd]. rewrite Hs, Hd.
  split; [discriminate | reflexivity].
Qed.

(** Both directions of a point, from a StopTimeUpdate nothing was yet
    assigned to. *)
Lemma directions_consistent (pdp : json) (st st' : StopTimeUpdate)
      (w : list diag) :
  (forall t, status_of t st = unset /\ delay_of t st = None) ->
  for_each (direction_body pdp) [Arrivee; Depart] st = (w, Ok st') ->
  delay_consistent st'.
Proof.
  intros Hfresh. cbn [for_each]. unfold bind at 1.
  destruct (direction_body pdp Arrivee st) as [w1 [st1 |]] eqn:H1;
    [| discriminate].
  unfold bind at 1.
  destruct (direction_body pdp Depart st1) as [w2 [st2 |]] eqn:H2;
    [| discriminate].
  unfold ret. intros H. injection H as _ <-.
  apply direction_body_shape in H1, H2.
  destruct (Hfresh Arrivee) as [Hsa Hda]. destruct (Hfresh Depart) as [Hsd Hdd].
  destruct (direction_shape_consistent Arrivee st st1 Hsa Hda
              (fresh_consistent st Hfresh) H1) as (Hc1 & Hs1 & Hd1).
  cbn [other] in Hs1, Hd1.
  apply (direction_shape_consistent Depart st1 st2); auto; congruence.
Qed.

Lemma pdp_body_consistent (v : VJ) (pdp : obj) (stus stus' : list StopTimeUpdate)
      (w : list diag) :
  pdp_body VJ get_message get_navitia_stop_time_sncf v pdp stus = (w, Ok stus') ->
  Forall delay_consistent stus -> Forall delay_consistent stus'.
Proof.
  unfold pdp_body. unfold bind at 1. unfold lift at 1.
  destruct (_get_navitia_stop_time VJ get_navitia_stop_time_sncf (JObj pdp) v)
    as [[nav_st log_dict] |]; [| discriminate].
  unfold bind at 1.
  assert (Hlog : exists wl, match log_dict with
                            | Some log => _record_and_log (StopTimeLog log)
                            | None => ret tt
                            end = (wl, Ok tt)).
  { destruct log_dict; eexists; reflexivity. }
  destruct Hlog as [wl ->].
  destruct nav_st as [nav_st |].
  - rewrite !get_value_nullable. unfold lift at 1. unfold bind at 1.
    set (first_id := get_nullable pdp "idMotifInterneDepartReference").
    set (st_message_id := if negb (truthy first_id) then _ else _).
    assert (Hid : exists id, st_message_id = ([], Ok id)).
    { subst st_message_id. destruct (negb (truthy first_id)); eexists; reflexivity. }
    destruct Hid as [id ->]. unfold bind at 1.
    set (st0 := if truthy id then _ else _).
    unfold bind at 1.
    destruct (for_each _ _ st0) as [wd [st' |]] eqn:Hdirs; [| discriminate].
    unfold ret. intros H Hstus. injection H as _ <-.
    apply Forall_app. split; [exact Hstus |].
    constructor; [| constructor].
    apply (directions_consistent (JObj pdp) st0 st' wd); [| exact Hdirs].
    subst st0. intros t. now destruct (truthy id), t.
  - unfold ret. intros H Hstus. injection H as _ <-. exact Hstus.
Qed.

Lemma for_each_pdp_consistent (v : VJ) (pdps : list obj) :
  forall (stus stus' : list StopTimeUpdate) (w : list diag),
    for_each (pdp_body VJ get_message get_navitia_stop_time_sncf v) pdps stus
    = (w, Ok stus') ->
    Forall delay_consistent stus -> Forall delay_consistent stus'.
Proof.
  induction pdps as [| pdp pdps' IH]; intros stus stus' w; cbn [for_each].
  - unfold ret. intros H. now injection H as _ <-.
  - unfold bind at 1.
    destruct (pdp_body _ _ _ v pdp stus) as [w1 [stus1 |]] eqn:Hbody;
      [| discriminate].
    destruct (for_each _ pdps' stus1) as [w2 r2] eqn:Hrest.
    intros H Hstus. injection H as _ ->.
    apply (IH stus1 stus' w2 Hrest).
    now apply (pdp_body_consistent v pdp stus stus1 w1).
Qed.

(** The invariant holds of what [_make_trip_update] returns. *)
Lemma make_trip_update_consistent
        (v : VJ) (json_train : json) (w : list diag) (tu : TripUpdate VJ) :
  make_trip_update v json_train = (w, Ok tu) ->
  Forall delay_consistent (stop_time_updates VJ tu).
Proof.
  subst make_trip_update. unfold _make_trip_update.
  unfold bind at 1. unfold lift at 1.
  destruct (get_value json_train "idMotifInterneReference" true) as [id |];
    [| discriminate].
  set (tu0 := if truthy id then _ else _).
  assert (Htu0 : stop_time_updates VJ tu0 = []).
  { subst tu0. now destruct (truthy id). }
  unfold bind at 1. unfold lift at 1.
  destruct (get_value json_train "statutOperationnel" false) as [trip_status |];
    [| discriminate].
  destruct (py_eq trip_status (JStr "SUPPRIMEE")).
  { unfold ret. intros H. injection H as _ <-. constructor. }
  destruct (py_eq trip_status (JStr "AJOUTEE")).
  { unfold bind, _record_and_log, ret. intros H. injection H as _ <-.
    rewrite Htu0. constructor. }
  unfold bind at 1. unfold lift at 1.
  destruct (get_value json_train "listePointDeParcours" false) as [lst |];
    [| discriminate].
  unfold bind at 1. unfold lift at 1.
  destruct (pdp_list lst) as [list_pdp |]; [| discriminate].
  unfold bind at 1.
  destruct (for_each _ _ _) as [wl [stus |]] eqn:Hloop; [| discriminate].
  unfold ret. intros H. injection H as _ <-. cbn [stop_time_updates set_stop_time_updates].
  apply (for_each_pdp_consistent v _ _ stus wl Hloop).
  cbn [stop_time_updates set_tu_status]. rewrite Htu0. constructor.
Qed.

(** *** Unknown circulation status *)

Lemma direction_body_invalid_status (pdp : obj) (t : toggle) (st : StopTimeUpdate)
      (code : json) :
  get_value (get_nullable pdp (horaireVoyageur t)) "statutCirculationOPE" true
  = Ok code ->
  code <> JNull ->
  known_status code = false ->
  direction_body (JObj pdp) t st
  = ([], Raise (InvalidArguments (InvalidStatus code t))).
Proof.
  intros Hcode Hsome Hknown. unfold direction_body.
  rewrite get_value_nullable. unfold lift at 1. unfold bind at 1.
  destruct (get_value_ok_dict _ _ _ _ Hcode) as [o Hblock].
  rewrite Hblock in *. cbn [is_none]. rewrite Hcode.
  unfold lift at 1. unfold bind at 1.
  assert (Hnone : is_none code = false) by now destruct code.
  rewrite Hnone.
  unfold known_status, py_in in Hknown. cbn [existsb] in Hknown.
  repeat (apply orb_false_elim in Hknown as [?H Hknown]).
  rewrite H, H0, H1, H2. reflexivity.
Qed.

Lemma for_each_app {A S} (body : A -> S -> M S) (l1 l2 : list A) (s : S) :
  for_each body (l1 ++ l2) s = bind (for_each body l1 s) (for_each body l2).
Proof.
  revert s. induction l1 as [| x l1' IH]; intros s; cbn [app for_each].
  - unfold ret, bind. now destruct (for_each body l2 s).
  - unfold bind at 1 3. destruct (body x s) as [w [s1 |]].
    + rewrite IH. unfold bind at 2.
      destruct (for_each body l1' s1) as [w1 [s2 |]].
      * unfold bind. destruct (for_each body l2 s2) as [w2 r2].
        now rewrite app_assoc.
      * reflexivity.
    + reflexivity.
Qed.

Lemma bind_raise {A B} (m : M A) (k : A -> M B) (w : list diag) (e : exn) :
  m = (w, Raise e) -> bind m k = (w, Raise e).
Proof. now intros ->. Qed.

Lemma pdp_body_invalid_status (v : VJ) (pdp : obj) (t : toggle) (code : json)
      (nav_st : obj) (log_dict : option string) (stus : list StopTimeUpdate) :
  _get_navitia_stop_time VJ get_navitia_stop_time_sncf (JObj pdp) v
  = Ok (Some nav_st, log_dict) ->
  get_value (get_nullable pdp (horaireVoyageur t)) "statutCirculationOPE" true
  = Ok code ->
  code <> JNull ->
  known_status code = false ->
  (t = Depart ->
   forall st, exists w st', direction_body (JObj pdp) Arrivee st = (w, Ok st')) ->
  exists w,
    pdp_body VJ get_message get_navitia_stop_time_sncf v pdp stus
    = (w, Raise (InvalidArguments (InvalidStatus code t))).
Proof.
  intros Hmatch Hcode Hsome Hknown Harrival.
  unfold pdp_body. rewrite Hmatch. unfold lift at 1. unfold bind at 1.
  assert (Hlog : exists wl, match log_dict with
                            | Some log => _record_and_log (StopTimeLog log)
                            | None => ret tt
                            end = (wl, Ok tt)).
  { destruct log_dict; eexists; reflexivity. }
  destruct Hlog as [wl ->]. unfold bind at 1.
  rewrite !get_value_nullable. unfold lift at 1. unfold bind at 1.
  set (first_id := get_nullable pdp "idMotifInterneDepartReference").
  set (st_message_id := if negb (truthy first_id) then _ else _).
  assert (Hid : exists id, st_message_id = ([], Ok id)).
  { subst st_message_id. destruct (negb (truthy first_id)); eexists; reflexivity. }
  destruct Hid as [id ->]. unfold bind at 1.
  set (st0 := if truthy id then _ else _).
  assert (Hdirs : exists wd,
             for_each (direction_body (JObj pdp)) [Arrivee; Depart] st0
             = (wd, Raise (InvalidArguments (InvalidStatus code t)))).
  { cbn [for_each]. destruct t.
    - rewrite (direction_body_invalid_status pdp Arrivee st0 code Hcode Hsome Hknown).
      eexists. reflexivity.
    - destruct (Harrival eq_refl st0) as (w1 & st1 & ->). unfold bind at 1.
      rewrite (direction_body_invalid_status pdp Depart st1 code Hcode Hsome Hknown).
      eexists. reflexivity. }
  destruct Hdirs as [wd ->]. eexists. reflexivity.
Qed.

Lemma map_M_first_raise {A B} (f : A -> M B) (before after : list A) (x : A)
      (w : list diag) (e : exn) :
  (forall y, In y before -> exists wy b, f y = (wy, Ok b)) ->
  f x = (w, Raise e) ->
  exists w', map_M f (before ++ x :: after) = (w', Raise e).
Proof.
  intros Hbefore Hx. induction before as [| y before' IH]; cbn [app map_M].
  - rewrite Hx. unfold bind. eauto.
  - destruct (Hbefore y (or_introl eq_refl)) as (wy & b & ->).
    unfold bind at 1.
    destruct IH as [w' ->]; [intros z Hz; apply Hbefore; now right |].
    unfold bind. eauto.
Qed.

(** C4, amended.  In a message whose trip-level status is neither
    [SUPPRIMEE] nor [AJOUTEE], take a relevant stop that the stop lookup
    finds for the trip instance, the stops before it having been
    processed without failure, and a direction whose time-block carries a
    status code that is none of [SUPPRESSION],
    [SUPPRESSION_DETOURNEMENT], [CREATION], [DETOURNEMENT] (the arrival
    direction of the stop not failing when the direction is the
    departure).  Then that direction raises [InvalidArguments] naming the
    code and the direction, and [_make_trip_update] raises it for the trip
    instance; when the trip instances the lookup lists before this one are
    processed without failure, [build] raises that same [InvalidArguments]
    for the message; and in any case [build] raises for the message and
    returns no TripUpdate. *)
Theorem unknown_status_invalid_feed
        (v : VJ) (json_train trip_status list_value : json)
        (list_pdp pre post : list obj) (pdp : obj) (t : toggle) (code : json)
        (w_pre : list diag) (stus : list StopTimeUpdate)
        (nav_st : obj) (log_dict : option string) :
  get_value json_train "statutOperationnel" false = Ok trip_status ->
  py_eq trip_status (JStr "SUPPRIMEE") = false ->
  py_eq trip_status (JStr "AJOUTEE") = false ->
  get_value json_train "listePointDeParcours" false = Ok list_value ->
  pdp_list list_value = Ok list_pdp ->
  _retrieve_interesting_pdp list_pdp = pre ++ pdp :: post ->
  for_each (pdp_body VJ get_message get_navitia_stop_time_sncf v) pre []
  = (w_pre, Ok stus) ->
  _get_navitia_stop_time VJ get_navitia_stop_time_sncf (JObj pdp) v
  = Ok (Some nav_st, log_dict) ->
  get_value (get_nullable pdp (horaireVoyageur t)) "statutCirculationOPE" true
  = Ok code ->
  code <> JNull ->
  known_status code = false ->
  (t = Depart ->
   forall st, exists w st', direction_body (JObj pdp) Arrivee st = (w, Ok st')) ->
  (forall st,
      direction_body (JObj pdp) t st
      = ([], Raise (InvalidArguments (InvalidStatus code t)))) /\
  (exists w,
      make_trip_update v json_train
      = (w, Raise (InvalidArguments (InvalidStatus code t)))) /\
  (forall (raw_data : string) (doc : json) (before after : list VJ),
      ujson_loads raw_data = Some doc ->
      get_value doc "nouvelleVersion" false = Ok json_train ->
      get_vjs json_train = Ok (before ++ v :: after) ->
      (forall v0, In v0 before ->
                  exists w0 tu, make_trip_update v0 json_train = (w0, Ok tu)) ->
      exists w,
        build_updates raw_data
        = (w, Raise (InvalidArguments (InvalidStatus code t)))) /\
  (forall (raw_data : string) (doc : json) (vjs : list VJ),
      ujson_loads raw_data = Some doc ->
      get_value doc "nouvelleVersion" false = Ok json_train ->
      get_vjs json_train = Ok vjs ->
      In v vjs ->
      exists w e, build_updates raw_data = (w, Raise e)).
Proof.
  intros Hstatus Hsup Hadd Hlist Hpdps Hrel Hpre Hmatch Hcode Hsome Hknown Harrival.
  assert (Htrip : exists w,
             make_trip_update v json_train
             = (w, Raise (InvalidArguments (InvalidStatus code t)))).
  { subst make_trip_update. unfold _make_trip_update.
    destruct (get_value_ok_dict _ _ _ _ Hstatus) as [o ->].
    rewrite get_value_nullable. unfold lift at 1. unfold bind at 1.
    set (tu0 := if truthy _ then _ else _).
    assert (Htu0 : stop_time_updates VJ tu0 = []).
    { subst tu0. now destruct (truthy _). }
    rewrite Hstatus. unfold lift at 1. unfold bind at 1. rewrite Hsup, Hadd.
    rewrite Hlist. unfold lift at 1. unfold bind at 1.
    rewrite Hpdps. unfold lift at 1. unfold bind at 1.
    rewrite Hrel. cbn [stop_time_updates set_tu_status]. rewrite Htu0.
    rewrite for_each_app, Hpre. unfold bind at 2. cbn [for_each].
    destruct (pdp_body_invalid_status v pdp t code nav_st log_dict stus
                Hmatch Hcode Hsome Hknown Harrival) as [wb ->].
    unfold bind. eexists. reflexivity. }
  split; [| split; [| split]].
  - intros st. now apply direction_body_invalid_status.
  - exact Htrip.
  - intros raw_data doc before after Hloads Hversion Hvjs Hbefore.
    rewrite (build_decoded _ _ _ Hloads Hversion), Hvjs.
    unfold lift at 1. unfold bind at 1.
    destruct Htrip as [w Hw].
    destruct (map_M_first_raise (fun v => make_trip_update v json_train)
                before after v w _ Hbefore Hw) as [w' ->].
    eauto.
  - intros raw_data doc vjs Hloads Hversion Hvjs Hin.
    rewrite (build_decoded _ _ _ Hloads Hversion), Hvjs.
    unfold lift at 1. unfold bind at 1.
    destruct (map_M_raise (fun v => make_trip_update v json_train) vjs v Hin)
      as (w & e & ->).
    + destruct Htrip as [w Hw]. eauto.
    + eauto.
Qed.

(** Every TripUpdate [build] returns was made by [_make_trip_update]
    from the message's [nouvelleVersion]. *)
Lemma map_M_all {A B} (f : A -> M B) (l : list A) :
  forall (w : list diag) (ys : list B),
    map_M f l = (w, Ok ys) ->
    Forall (fun y => exists x w', f x = (w', Ok y)) ys.
Proof.
  induction l as [| x l' IH]; intros w ys; cbn [map_M].
  - unfold ret. intros H. injection H as _ <-. constructor.
  - unfold bind at 1. destruct (f x) as [wx [y |]] eqn:Hx; [| discriminate].
    unfold bind at 1. destruct (map_M f l') as [wl [ys' |]] eqn:Hl;
      [| discriminate].
    unfold ret. intros H. injection H as _ <-.
    constructor; [eauto | now apply (IH wl)].
Qed.

Lemma build_all (raw_data : string) (w : list diag)
      (trip_updates : list (TripUpdate VJ)) :
  build_updates raw_data = (w, Ok trip_updates) ->
  exists json_train,
    Forall (fun tu => exists v w', make_trip_update v json_train = (w', Ok tu))
           trip_updates.
Proof.
  subst build_updates. unfold build.
  destruct (ujson_loads raw_data) as [doc |]; [| discriminate].
  unfold bind at 1. unfold lift at 1.
  destruct (py_contains "nouvelleVersion" doc) as [[|] |]; try discriminate.
  cbn [negb]. unfold bind at 1. unfold lift at 1.
  destruct (get_value doc "nouvelleVersion" false) as [json_train |];
    [| discriminate].
  unfold bind at 1. unfold lift at 1.
  destruct (_get_vjs _ _ _ _ json_train) as [vjs |]; [| discriminate].
  destruct (map_M _ vjs) as [wm r] eqn:Hmap.
  intros H. injection H as _ ->.
  exists json_train. now apply (map_M_all _ vjs wm).
Qed.

(** C8. In every StopTimeUpdate of a TripUpdate the builder returns, and
    for each direction: a status [update] comes with a delay (of zero
    seconds possibly), and a status [delete], which the codes
    [SUPPRESSION] and [SUPPRESSION_DETOURNEMENT] give, comes with no
    delay.  This holds of each call of [_make_trip_update] and of every
    TripUpdate of the list [build] returns. *)
Theorem stop_time_updates_delay_consistent :
  (forall (v : VJ) (json_train : json) (w : list diag) (tu : TripUpdate VJ),
      make_trip_update v json_train = (w, Ok tu) ->
      Forall delay_consistent (stop_time_updates VJ tu)) /\
  (forall (raw_data : string) (w : list diag)
          (trip_updates : list (TripUpdate VJ)),
      build_updates raw_data = (w, Ok trip_updates) ->
      Forall (fun tu => Forall delay_consistent (stop_time_updates VJ tu))
             trip_updates).
Proof.
  split; [exact make_trip_update_consistent |].
  intros raw_data w trip_updates Hbuild.
  destruct (build_all raw_data w trip_updates Hbuild) as [json_train Hall].
  apply Forall_forall. intros tu Htu.
  rewrite Forall_forall in Hall. destruct (Hall tu Htu) as (v & w' & Hmake).
  now apply (make_trip_update_consistent v json_train w').
Qed.

End BuilderFacts.

(** ** Properties of [_retrieve_projected_time] *)

Lemma find_source_dicts (source_ref : json) (cands : list obj) :
  find_source source_ref (map JObj cands)
  = Ok (option_map JObj (find (source_matches source_ref) cands)).
Proof.
  induction cands as [| c cands' IH]; [reflexivity |].
  cbn [map find_source find]. rewrite get_value_nullable. cbn [rbind].
  fold (source_matches source_ref c).
  destruct (source_matches source_ref c); [reflexivity | exact IH].
Qed.

Lemma py_eq_none (v : json) : py_eq JNull v = true -> v = JNull.
Proof. destruct v; simpl; congruence. Qed.

Lemma source_matches_py_eq (source_ref : json) (c : obj) :
  source_ref <> JNull ->
  source_matches source_ref c = py_eq (get_nullable c "source") source_ref.
Proof.
  intros Href. unfold source_matches.
  destruct (get_nullable c "source") eqn:Hs; try reflexivity.
  cbn [is_none negb andb]. symmetry.
  destruct (py_eq JNull source_ref) eqn:Heq; [| reflexivity].
  now apply py_eq_none in Heq.
Qed.

Lemma truthy_dicts (cands : list obj) :
  truthy (JArr (map JObj cands)) = match cands with [] => false | _ => true end.
Proof. now destruct cands. Qed.

(** With a reference, the resolver is a search for the first candidate
    with that source. *)
Lemma retrieve_projected_time_ref (source_ref : json) (cands : list obj) :
  source_ref <> JNull ->
  _retrieve_projected_time source_ref (JArr (map JObj cands))
  = match find (source_matches source_ref) cands with
    | Some c => Ok (JObj c)
    | None => Raise (InvalidArguments
                       (SourceNotFound source_ref (JArr (map JObj cands))))
    end.
Proof.
  intros Href. unfold _retrieve_projected_time.
  assert (Hnone : is_none source_ref = false) by now destruct source_ref.
  rewrite Hnone. cbn [negb]. rewrite truthy_dicts.
  destruct cands as [| c cands']; [reflexivity |].
  cbn [py_iter rbind]. rewrite find_source_dicts. cbn [rbind].
  now destruct (find (source_matches source_ref) (c :: cands')).
Qed.

(** C2. The case analysis of the projected-time resolver.  With a
    reference: when some candidate's source equals it, a candidate of the
    list whose source equals it is returned (the only such candidate when
    there is exactly one); when none does, whether the list is empty, absent
    or not, [InvalidArguments] is raised.  Without a reference: the only
    item of a one-item list is returned, a list of two items or more
    raises [InvalidArguments], an empty or absent list gives [None]. *)
Theorem retrieve_projected_time_cases (source_ref : json) (cands : list obj) :
  (source_ref <> JNull ->
   (forall c, In c cands ->
              py_eq (get_nullable c "source") source_ref = true ->
              exists c', _retrieve_projected_time source_ref (JArr (map JObj cands))
                         = Ok (JObj c') /\
                         In c' cands /\
                         py_eq (get_nullable c' "source") source_ref = true /\
                         ((forall c'', In c'' cands ->
                                       py_eq (get_nullable c'' "source") source_ref = true ->
                                       c'' = c) -> c' = c)) /\
   ((forall c, In c cands ->
               py_eq (get_nullable c "source") source_ref = false) ->
    _retrieve_projected_time source_ref (JArr (map JObj cands))
    = Raise (InvalidArguments (SourceNotFound source_ref (JArr (map JObj cands))))) /\
   _retrieve_projected_time source_ref (JArr [])
   = Raise (InvalidArguments (SourceNotFound source_ref (JArr []))) /\
   _retrieve_projected_time source_ref JNull
   = Raise (InvalidArguments (SourceNotFound source_ref JNull))) /\
  (forall item : json, _retrieve_projected_time JNull (JArr [item]) = Ok item) /\
  (forall items : list json,
      2 <= List.length items ->
      _retrieve_projected_time JNull (JArr items)
      = Raise (InvalidArguments (MultipleNoSource (JArr items)))) /\
  _retrieve_projected_time JNull (JArr []) = Ok JNull /\
  _retrieve_projected_time JNull JNull = Ok JNull.
Proof.
  split; [| split; [| split; [| split]]].
  - intros Href.
    assert (Hnone : is_none source_ref = false) by now destruct source_ref.
    split; [| split; [| split]].
    + intros c Hin Heq. rewrite (retrieve_projected_time_ref _ _ Href).
      destruct (find (source_matches source_ref) cands) as [c' |] eqn:Hfind.
      * apply find_some in Hfind as [Hin' Hm].
        rewrite (source_matches_py_eq _ _ Href) in Hm.
        exists c'. repeat split; auto.
      * exfalso. pose proof (find_none _ _ Hfind c Hin) as Hm.
        rewrite (source_matches_py_eq _ _ Href) in Hm. congruence.
    + intros Hnomatch. rewrite (retrieve_projected_time_ref _ _ Href).
      destruct (find (source_matches source_ref) cands) as [c' |] eqn:Hfind;
        [| reflexivity].
      apply find_some in Hfind as [Hin' Hm].
      rewrite (source_matches_py_eq _ _ Href) in Hm.
      rewrite (Hnomatch c' Hin') in Hm. discriminate.
    + unfold _retrieve_projected_time. now rewrite Hnone.
    + unfold _retrieve_projected_time. now rewrite Hnone.
  - reflexivity.
  - intros items Hlen. unfold _retrieve_projected_time. cbn [is_none negb].
    destruct items as [| x [| y items']]; cbn [List.length] in Hlen; try lia.
    reflexivity.
  - reflexivity.
  - reflexivity.
Qed.

(** ** The properties on the sample feeds *)

Module Runs.
Import Sample.

(** The examples of the docstring of [as_duration]. *)
Example as_duration_none : as_duration JNull = Ok None.
Proof. reflexivity. Qed.

Example as_duration_900 : as_duration (JNum 900) = Ok (Some (mk_timedelta 0 900)).
Proof. reflexivity. Qed.

Example as_duration_minus_400 :
  as_duration (JNum (-400)) = Ok (Some (mk_timedelta (-1) 86000)).
Proof. reflexivity. Qed.

Example as_duration_bob : as_duration (JStr "bob") = Raise TypeError.
Proof. reflexivity. Qed.

(** The last timestamp [utcfromtimestamp] accepts, and the first it does
    not. *)
Example as_duration_last :
  as_duration (JNum 253402300799) = Ok (Some (mk_timedelta 2932896 86399)).
Proof. vm_compute. reflexivity. Qed.

Example as_duration_out_of_range_high :
  as_duration (JNum 253402300800) = Raise ValueError.
Proof. vm_compute. reflexivity. Qed.

(** A late departure and a stop not served, end to end. *)
Example disrupted_run :
  make_trip_update "vj:96231" disrupted
  = ([], Ok (mk_TripUpdate VJ "vj:96231" None None update disrupted_stops)).
Proof. vm_compute. reflexivity. Qed.

(** A departure with the status [CREATION] is reported and otherwise
    left alone. *)
Example creation_run :
  direction_body
    (JObj (point "A" [("horaireVoyageurDepart",
                       coded_block "2015-09-21T15:21:00" "CREATION")]))
    Depart (new_StopTimeUpdate JNull)
  = ([StopNotHandled (JStr "CREATION")], Ok (new_StopTimeUpdate JNull)).
Proof. vm_compute. reflexivity. Qed.

(** C1 as stated fails: the stop is relevant, its departure time-block
    has no status code and holds one unreferenced candidate with
    [pronosticIV = 900], which the resolver would return, and yet the
    departure is left unset, since the classifier reads the candidates
    of the point, which has none. *)
Lemma candidates_in_time_block_ignored :
  _retrieve_interesting_pdp [nested_origin; terminus] = [nested_origin; terminus] /\
  (exists block,
      get_nullable nested_origin (horaireVoyageur Depart) = JObj block /\
      get_nullable block "statutCirculationOPE" = JNull /\
      _retrieve_projected_time
        (get_nullable block (sourceHoraireProjeteReference Depart))
        (get_nullable block (listeHoraireProjete Depart))
      = Ok (JObj [("pronosticIV", JNum 900)])) /\
  direction_body (JObj nested_origin) Depart (new_StopTimeUpdate JNull)
  = ([], Ok (new_StopTimeUpdate JNull)) /\
  exists st rest,
    make_trip_update "vj:96231" (feed "96231" "PERTURBEE" [nested_origin; terminus])
    = ([], Ok (mk_TripUpdate VJ "vj:96231" None None update (st :: rest))) /\
    departure_status st = unset /\ departure_delay st = None.
Proof.
  split; [reflexivity |]. split.
  - eexists. split; [reflexivity |]. split; reflexivity.
  - split; [reflexivity |].
    eexists. eexists. split; [vm_compute; reflexivity |]. split; reflexivity.
Qed.

Lemma direction_without_status_uses_point_candidates_witness :
  get_nullable delayed_origin (horaireVoyageur Depart) <> JNull /\
  get_value (get_nullable delayed_origin (horaireVoyageur Depart))
            "statutCirculationOPE" true = Ok JNull /\
  (timestamp_min <= 900 <= timestamp_max)%Z /\
  direction_body (JObj delayed_origin) Depart (new_StopTimeUpdate JNull)
  = ([], Ok (mk_StopTimeUpdate JNull None unset update
               None (Some (mk_timedelta 0 900)))).
Proof.
  assert (Hblock : get_nullable delayed_origin (horaireVoyageur Depart) <> JNull)
    by discriminate.
  assert (Hcode : get_value (get_nullable delayed_origin (horaireVoyageur Depart))
                            "statutCirculationOPE" true = Ok JNull)
    by reflexivity.
  assert (Hrange : (timestamp_min <= 900 <= timestamp_max)%Z)
    by (unfold timestamp_min, timestamp_max; lia).
  split; [exact Hblock |]. split; [exact Hcode |]. split; [exact Hrange |].
  destruct (direction_without_status_uses_point_candidates
              delayed_origin Depart (new_StopTimeUpdate JNull) Hblock Hcode)
    as (_ & _ & _ & H & _).
  exact (proj1 (H (JObj [("pronosticIV", JNum 900)]) 900%Z eq_refl eq_refl Hrange)).
Defined.

Lemma retrieve_projected_time_cases_witness :
  JStr "ESCALE" <> JNull /\
  In cand_escale [cand_gmao; cand_escale] /\
  py_eq (get_nullable cand_escale "source") (JStr "ESCALE") = true /\
  exists c',
    _retrieve_projected_time (JStr "ESCALE")
      (JArr (map JObj [cand_gmao; cand_escale])) = Ok (JObj c') /\
    In c' [cand_gmao; cand_escale] /\
    py_eq (get_nullable c' "source") (JStr "ESCALE") = true.
Proof.
  assert (Href : JStr "ESCALE" <> JNull) by discriminate.
  assert (Hin : In cand_escale [cand_gmao; cand_escale]) by (simpl; auto).
  assert (Heq : py_eq (get_nullable cand_escale "source") (JStr "ESCALE") = true)
    by reflexivity.
  split; [exact Href |]. split; [exact Hin |]. split; [exact Heq |].
  destruct (proj1 (proj1 (retrieve_projected_time_cases
                            (JStr "ESCALE") [cand_gmao; cand_escale]) Href)
              cand_escale Hin Heq) as (c' & H1 & H2 & H3 & _).
  exists c'. split; [exact H1 |]. split; [exact H2 | exact H3].
Defined.

Lemma suppressed_trip_deleted_witness :
  get_value cancelled "statutOperationnel" false = Ok (JStr "SUPPRIMEE") /\
  make_trip_update "vj:96231" cancelled
  = ([], Ok (mk_TripUpdate VJ "vj:96231" None None delete [])).
Proof.
  split; [reflexivity |].
  exact (proj1 (suppressed_trip_deleted VJ DateTime None get_message stop_time
                  navitia_vjs parse loads cancelled eq_refl) "vj:96231").
Defined.

Lemma added_trip_not_handled_witness :
  get_value added "statutOperationnel" false = Ok (JStr "AJOUTEE") /\
  make_trip_update "vj:96231" added
  = ([TripNotHandled], Ok (mk_TripUpdate VJ "vj:96231" None None unset [])).
Proof.
  split; [reflexivity |].
  exact (proj1 (added_trip_not_handled VJ DateTime None get_message stop_time
                  navitia_vjs parse loads added eq_refl) "vj:96231").
Defined.

(** C4 as stated fails: the first stop of the cancelled message has a
    departure with the unknown status code [FOO], and the message is
    processed without failure, giving a deleted trip. *)
Lemma cancelled_trip_unknown_status_accepted :
  get_value (get_nullable odd_origin (horaireVoyageur Depart))
            "statutCirculationOPE" true = Ok (JStr "FOO") /\
  known_status (JStr "FOO") = false /\
  loads "cancelled" = Some (document cancelled) /\
  get_value cancelled "listePointDeParcours" false
  = Ok (JArr (map JObj [odd_origin; terminus])) /\
  build_updates "cancelled"
  = ([], Ok [mk_TripUpdate VJ "vj:96231" None None delete []]).
Proof. repeat split. Qed.

Lemma unknown_status_invalid_feed_witness :
  get_value (get_nullable odd_origin (horaireVoyageur Depart))
            "statutCirculationOPE" true = Ok (JStr "FOO") /\
  known_status (JStr "FOO") = false /\
  (exists w,
      make_trip_update "vj:96231" odd
      = (w, Raise (InvalidArguments (InvalidStatus (JStr "FOO") Depart)))) /\
  (exists w,
      build_updates "odd"
      = (w, Raise (InvalidArguments (InvalidStatus (JStr "FOO") Depart)))).
Proof.
  assert (Hcode : get_value (get_nullable odd_origin (horaireVoyageur Depart))
                            "statutCirculationOPE" true = Ok (JStr "FOO"))
    by reflexivity.
  assert (Hsome : JStr "FOO" <> JNull) by discriminate.
  assert (Hknown : known_status (JStr "FOO") = false) by reflexivity.
  assert (Harrival : Depart = Depart ->
                     forall st, exists w st',
                         direction_body (JObj odd_origin) Arrivee st = (w, Ok st')).
  { intros _ st. exists [], st. reflexivity. }
  split; [exact Hcode |]. split; [exact Hknown |].
  destruct (unknown_status_invalid_feed VJ DateTime None get_message stop_time
              navitia_vjs parse loads
              "vj:96231" odd (JStr "PERTURBEE")
              (JArr (map JObj [odd_origin; terminus]))
              [odd_origin; terminus] [] [terminus] odd_origin Depart (JStr "FOO")
              [] [] [("stop_point", JObj [("id", JStr "A")])] None
              eq_refl eq_refl eq_refl eq_refl eq_refl eq_refl eq_refl eq_refl
              Hcode Hsome Hknown Harrival) as (_ & Htrip & Hbuild & _).
  split; [exact Htrip |].
  apply (Hbuild "odd" (document odd) [] []); try reflexivity.
  intros v0 [].
Defined.

(** C5 as stated fails: the siding has a departure time-block and no
    arrival time-block, a station with an arrival time-block follows it,
    and the siding is not kept, because it is not a station. *)
Lemma siding_with_departure_dropped :
  has_depart siding = true /\
  has_arrivee siding = false /\
  following_arrival [terminus] = true /\
  _retrieve_interesting_pdp [halt; siding; terminus] = [halt; terminus] /\
  ~ In siding (_retrieve_interesting_pdp [halt; siding; terminus]).
Proof.
  split; [reflexivity |]. split; [reflexivity |]. split; [reflexivity |].
  split; [reflexivity |].
  intros [H | [H | []]]; discriminate H.
Qed.

Lemma departure_only_station_kept_unless_no_arrival_follows_witness :
  is_station origin = true /\
  has_depart origin = true /\
  has_arrivee origin = false /\
  following_arrival [terminus] = true /\
  _retrieve_interesting_pdp [origin; terminus] = [origin; terminus].
Proof.
  split; [reflexivity |]. split; [reflexivity |]. split; [reflexivity |].
  split; [reflexivity |].
  exact (proj1 (departure_only_station_kept_unless_no_arrival_follows
                  [] [terminus] origin eq_refl eq_refl eq_refl) eq_refl).
Defined.

Lemma no_departure_invalid_feed_witness :
  (forall pdp, In pdp [terminus] -> has_depart pdp = false) /\
  _retrieve_interesting_pdp [terminus] = [] /\
  get_vjs (feed "96231" "PERTURBEE" [terminus])
  = Raise (InvalidArguments (NoValidStopTime (feed "96231" "PERTURBEE" [terminus]))).
Proof.
  assert (Hno : forall pdp, In pdp [terminus] -> has_depart pdp = false).
  { intros pdp [<- | []]. reflexivity. }
  split; [exact Hno |].
  destruct (no_departure_invalid_feed VJ DateTime None get_message stop_time
              navitia_vjs parse loads [terminus] Hno) as [Hempty Hfeed].
  split; [exact Hempty |].
  destruct (Hfeed (feed "96231" "PERTURBEE" [terminus]) eq_refl)
    as (_ & Hnumber & _).
  exact (Hnumber (JStr "96231") eq_refl).
Defined.

Lemma stop_time_updates_delay_consistent_witness :
  make_trip_update "vj:96231" disrupted
  = ([], Ok (mk_TripUpdate VJ "vj:96231" None None update disrupted_stops)) /\
  Forall delay_consistent disrupted_stops.
Proof.
  split; [exact disrupted_run |].
  exact (proj1 (stop_time_updates_delay_consistent VJ DateTime None get_message
                  stop_time navitia_vjs parse loads)
           "vj:96231" disrupted []
           (mk_TripUpdate VJ "vj:96231" None None update disrupted_stops)
           disrupted_run).
Defined.

(** C10 as stated fails: the filter keeps the only point of the list,
    whose two time-blocks are not null, the emptiness check passes, and
    the extraction of the service start time raises the missing
    required field [dateHeure]. *)
Lemma get_vjs_missing_dateHeure :
  _retrieve_interesting_pdp [undated] = [undated] /\
  get_nullable undated "horaireVoyageurDepart" <> JNull /\
  get_nullable undated "horaireVoyageurArrivee" <> JNull /\
  get_vjs (feed "96231" "PERTURBEE" [undated])
  = Raise (InvalidArguments
             (MissingKey "dateHeure"
                (JObj [("statutCirculationOPE", JStr "SUPPRESSION")]))).
Proof.
  split; [reflexivity |]. split; [discriminate |]. split; [discriminate |].
  reflexivity.
Qed.

Lemma get_vjs_time_blocks_present_witness :
  _retrieve_interesting_pdp [origin; terminus] = [origin; terminus] /\
  get_value (JObj origin) "horaireVoyageurDepart" false
  = Ok (time_block "2015-09-21T15:21:00") /\
  get_value (JObj terminus) "horaireVoyageurArrivee" false
  = Ok (time_block "2015-09-21T17:51:00").
Proof.
  assert (Hres : _retrieve_interesting_pdp [origin; terminus] = origin :: [terminus])
    by reflexivity.
  split; [exact Hres |].
  destruct (get_vjs_time_blocks_present VJ DateTime navitia_vjs parse
              [origin; terminus] origin [terminus] Hres)
    as ((Hdepart & _) & (Harrivee & _) & _).
  split; [exact Hdepart | exact Harrivee].
Defined.

End Runs.


(** * Further properties of the module *)

(** ** The stop filter *)

Lemma subseq_nil_l {A} (l : list A) : subseq [] l.
Proof. induction l; constructor; assumption. Qed.

Lemma filter_from_subseq (l : list obj) :
  forall picked_one, subseq (filter_from picked_one l) l.
Proof.
  induction l as [| pdp l' IH]; intros picked_one; cbn [filter_from];
    [constructor |].
  destruct (negb picked_one && negb (has_depart pdp)); [constructor; apply IH |].
  destruct (negb (is_station pdp)); [constructor; apply IH |].
  destruct (negb (has_depart pdp) && negb (has_arrivee pdp));
    [constructor; apply IH |].
  destruct (negb (has_arrivee pdp) && negb (following_arrival (pdp :: l')));
    [apply subseq_nil_l | constructor; apply IH].
Qed.

Lemma subseq_length {A} (r l : list A) : subseq r l -> List.length r <= List.length l.
Proof. induction 1; cbn [List.length]; lia. Qed.

Lemma subseq_in {A} (r l : list A) : subseq r l -> forall x, In x r -> In x l.
Proof.
  induction 1 as [| y r l _ IH | y r l _ IH]; intros x Hx.
  - exact Hx.
  - right. now apply IH.
  - destruct Hx as [-> | Hx]; [now left | right; now apply IH].
Qed.

(** X1. The filter only leaves points out: its result is the input list
    with some points removed, the others in feed order, so it is no longer
    than the input and holds no point the input does not hold. *)
Theorem retrieve_interesting_pdp_subseq (list_pdp : list obj) :
  subseq (_retrieve_interesting_pdp list_pdp) list_pdp /\
  List.length (_retrieve_interesting_pdp list_pdp) <= List.length list_pdp /\
  (forall pdp, In pdp (_retrieve_interesting_pdp list_pdp) -> In pdp list_pdp).
Proof.
  rewrite retrieve_filter_from.
  pose proof (filter_from_subseq list_pdp false) as H.
  split; [exact H |]. split; [now apply subseq_length | now apply subseq_in].
Qed.

(** X2. Every point the filter returns is a station and has a departure
    or an arrival time-block. *)
Theorem retrieve_interesting_pdp_stations (list_pdp : list obj) :
  Forall (fun pdp => is_station pdp = true /\
                     (has_depart pdp = true \/ has_arrivee pdp = true))
         (_retrieve_interesting_pdp list_pdp).
Proof.
  rewrite retrieve_filter_from.
  pose proof (filter_from_kept list_pdp false) as H.
  rewrite forallb_forall in H. apply Forall_forall. intros pdp Hin.
  specialize (H pdp Hin). unfold kept_point in H.
  apply andb_prop in H as [Hst Htime]. split; [exact Hst |].
  now apply orb_prop in Htime.
Qed.

Lemma following_arrival_kept (l : list obj) :
  following_arrival (filter kept_point l) = following_arrival l.
Proof.
  induction l as [| q l' IH]; [reflexivity |].
  cbn [filter]. rewrite following_arrival_cons.
  destruct (kept_point q) eqn:Hk.
  - rewrite following_arrival_cons. now rewrite IH.
  - rewrite IH. unfold kept_point in Hk.
    destruct (is_station q), (has_depart q), (has_arrivee q); simpl in *;
      congruence.
Qed.

Lemma filter_from_kept_only (l : list obj) :
  forall picked_one,
    filter_from picked_one (filter kept_point l) = filter_from picked_one l.
Proof.
  induction l as [| q l' IH]; intros picked_one; [reflexivity |].
  cbn [filter]. destruct (kept_point q) eqn:Hk.
  - cbn [filter_from]. rewrite !following_arrival_cons, following_arrival_kept.
    now rewrite !IH.
  - rewrite IH. cbn [filter_from]. unfold kept_point in Hk.
    destruct (is_station q), (has_depart q), (has_arrivee q), picked_one;
      simpl in *; congruence.
Qed.

(** X3. Points that are not stations and points with neither time-block
    have no influence on the filter: removing them from the input
    beforehand gives the same result. *)
Theorem retrieve_interesting_pdp_kept_only (list_pdp : list obj) :
  _retrieve_interesting_pdp (filter kept_point list_pdp)
  = _retrieve_interesting_pdp list_pdp.
Proof. rewrite !retrieve_filter_from. apply filter_from_kept_only. Qed.

(** X4. The lists the filter returns unchanged are exactly the lists of
    stations with a time-block each, that start with a departure and end
    with an arrival. *)
Theorem retrieve_interesting_pdp_fixed_iff (list_pdp : list obj) :
  _retrieve_interesting_pdp list_pdp = list_pdp <->
  forallb kept_point list_pdp = true /\
  match list_pdp with
  | [] => True
  | first :: rest =>
      has_depart first = true /\ has_arrivee (last rest first) = true
  end.
Proof.
  rewrite retrieve_filter_from. split.
  - intros Hfix. split.
    + rewrite <- Hfix. apply filter_from_kept.
    + destruct list_pdp as [| first rest]; [exact I |]. split.
      * now apply (filter_from_head (first :: rest) first rest).
      * pose proof (filter_from_ends (first :: rest) false) as Hend.
        now rewrite Hfix in Hend.
  - intros [Hkept Hshape]. apply filter_from_fixed; [exact Hkept | |].
    + destruct list_pdp as [| first rest]; [exact I | apply Hshape].
    + right. destruct list_pdp as [| first rest]; [exact I | apply Hshape].
Qed.

(** X5. The filter returns something exactly when the first station with
    a departure time-block has a station with an arrival time-block at or
    after it. *)
Theorem retrieve_interesting_pdp_nonempty_iff (list_pdp : list obj) :
  _retrieve_interesting_pdp list_pdp <> [] <->
  exists pre pdp post,
    list_pdp = pre ++ pdp :: post /\
    (forall q, In q pre -> has_depart q && is_station q = false) /\
    has_depart pdp = true /\
    is_station pdp = true /\
    following_arrival (pdp :: post) = true.
Proof.
  rewrite retrieve_filter_from. split.
  - induction list_pdp as [| q l' IH]; cbn [filter_from]; [congruence |].
    cbn [negb andb].
    destruct (has_depart q) eqn:Hdep; cbn [negb].
    + destruct (is_station q) eqn:Hst; cbn [negb andb].
      * destruct (following_arrival (q :: l')) eqn:Hfol.
        -- intros _. exists [], q, l'. repeat split; auto. intros x [].
        -- rewrite following_arrival_cons in Hfol.
           apply orb_false_elim in Hfol as [Hq _]. rewrite Hst, andb_true_r in Hq.
           rewrite Hq. cbn [negb andb]. congruence.
      * intros H. destruct (IH H) as (pre & pdp & post & -> & Hpre & Hrest).
        exists (q :: pre), pdp, post. split; [reflexivity |]. split; [| exact Hrest].
        intros x [<- | Hx]; [now rewrite Hdep, Hst | now apply Hpre].
    + intros H. destruct (IH H) as (pre & pdp & post & -> & Hpre & Hrest).
      exists (q :: pre), pdp, post. split; [reflexivity |]. split; [| exact Hrest].
      intros x [<- | Hx]; [now rewrite Hdep | now apply Hpre].
  - intros (pre & pdp & post & -> & Hpre & Hdep & Hst & Hfol).
    induction pre as [| q pre' IH]; cbn [app filter_from].
    + rewrite Hdep, Hst, Hfol. cbn [negb andb]. rewrite andb_false_r. discriminate.
    + assert (Hq : has_depart q && is_station q = false)
        by (apply Hpre; now left).
      assert (IH' : filter_from false (pre' ++ pdp :: post) <> [])
        by (apply IH; intros x Hx; apply Hpre; now right).
      destruct (has_depart q); cbn [negb andb]; [| exact IH'].
      cbn [andb] in Hq. rewrite Hq. exact IH'.
Qed.

Lemma filter_from_leading (pre l : list obj) :
  (forall q, In q pre -> has_depart q = false) ->
  filter_from false (pre ++ l) = filter_from false l.
Proof.
  induction pre as [| q pre' IH]; intros Hno; [reflexivity |].
  cbn [app filter_from]. rewrite (Hno q (or_introl eq_refl)). cbn [negb andb].
  apply IH. intros x Hx. apply Hno. now right.
Qed.

(** X6. Points ahead of the first departure time-block are ignored,
    stations with an arrival among them included: the filter gives the
    same result with or without them. *)
Theorem retrieve_interesting_pdp_leading (pre list_pdp : list obj) :
  (forall q, In q pre -> has_depart q = false) ->
  _retrieve_interesting_pdp (pre ++ list_pdp) = _retrieve_interesting_pdp list_pdp.
Proof. intros Hno. rewrite !retrieve_filter_from. now apply filter_from_leading. Qed.

Lemma filter_from_arrival_kept (pdp : obj) (post : list obj) :
  is_station pdp = true -> has_arrivee pdp = true ->
  forall (pre : list obj) (picked_one : bool),
    (picked_one = true \/ has_depart pdp = true \/
     exists q, In q pre /\ is_station q = true /\ has_depart q = true) ->
    exists before,
      filter_from picked_one (pre ++ pdp :: post)
      = before ++ pdp :: filter_from true post /\
      subseq before pre.
Proof.
  intros Hst Harr.
  assert (Hfol : forall l, following_arrival (l ++ pdp :: post) = true).
  { intros l. rewrite following_arrival_app, following_arrival_cons, Harr, Hst.
    cbn [andb orb]. apply orb_true_r. }
  induction pre as [| q pre' IH]; intros picked_one Hpick.
  - exists []. split; [| constructor]. cbn [app filter_from].
    rewrite Hst, Harr. cbn [negb andb]. rewrite !andb_false_r.
    destruct Hpick as [-> | [-> | (q & [] & _)]]; [reflexivity |].
    now rewrite andb_false_r.
  - cbn [app filter_from].
    change (q :: pre' ++ pdp :: post) with ((q :: pre') ++ pdp :: post).
    rewrite (Hfol (q :: pre')). cbn [negb]. rewrite andb_false_r.
    assert (Hskip : picked_one = true \/ has_depart pdp = true \/
                    (exists x, In x pre' /\ is_station x = true /\ has_depart x = true) ->
                    exists before,
                      filter_from picked_one (pre' ++ pdp :: post)
                      = before ++ pdp :: filter_from true post /\
                      subseq before (q :: pre')).
    { intros H. destruct (IH picked_one H) as (before & -> & Hsub).
      exists before. split; [reflexivity | now constructor]. }
    assert (Hkeep : exists before,
               q :: filter_from true (pre' ++ pdp :: post)
               = before ++ pdp :: filter_from true post /\
               subseq before (q :: pre')).
    { destruct (IH true (or_introl eq_refl)) as (before & -> & Hsub).
      exists (q :: before). split; [reflexivity | now constructor]. }
    destruct (negb picked_one && negb (has_depart q)) eqn:H1.
    + apply Hskip. apply andb_prop in H1 as [Hp Hd].
      destruct Hpick as [-> | [Hdep | (x & [<- | Hx] & Hxs & Hxd)]];
        [discriminate | now right; left | | right; right; eauto].
      rewrite Hxd in Hd. discriminate.
    + destruct (is_station q) eqn:Hq; cbn [negb].
      * destruct (negb (has_depart q) && negb (has_arrivee q)) eqn:H3;
          [| exact Hkeep].
        apply Hskip. apply andb_prop in H3 as [Hd _].
        destruct Hpick as [-> | [Hdep | (x & [<- | Hx] & Hxs & Hxd)]];
          [now left | now right; left | | right; right; eauto].
        rewrite Hxd in Hd. discriminate.
      * apply Hskip.
        destruct Hpick as [-> | [Hdep | (x & [<- | Hx] & Hxs & Hxd)]];
          [now left | now right; left | congruence | right; right; eauto].
Qed.

(** X7. A station with an arrival time-block is kept as soon as it has a
    departure time-block itself or comes after a station that has one:
    the result holds it, between points taken from those before it and the
    filter continued on the points after it. *)
Theorem retrieve_interesting_pdp_keeps_arrivals
        (pre post : list obj) (pdp : obj) :
  is_station pdp = true ->
  has_arrivee pdp = true ->
  (has_depart pdp = true \/
   exists q, In q pre /\ is_station q = true /\ has_depart q = true) ->
  In pdp (_retrieve_interesting_pdp (pre ++ pdp :: post)) /\
  exists before,
    _retrieve_interesting_pdp (pre ++ pdp :: post)
    = before ++ pdp :: filter_from true post /\
    subseq before pre.
Proof.
  intros Hst Harr Hpick. rewrite retrieve_filter_from.
  destruct (filter_from_arrival_kept pdp post Hst Harr pre false (or_intror Hpick))
    as (before & Heq & Hsub).
  split; [| now exists before].
  rewrite Heq. apply in_or_app. right. now left.
Qed.

(** ** Durations *)

(** X8. [as_duration] of a whole number of seconds that
    [utcfromtimestamp] accepts is a normalised duration of exactly that
    many seconds: the seconds field lies in [0, 86400), the sign is in the
    days, and the total is the number given; a whole number outside that
    range raises [ValueError]; two different numbers never give the same
    duration.  The result is [None] for [None] only. *)
Theorem as_duration_normalised :
  (forall z : Z,
      (timestamp_min <= z <= timestamp_max)%Z ->
      exists d, as_duration (JNum z) = Ok (Some d) /\
                total_seconds d = z /\
                (0 <= seconds d < 86400)%Z) /\
  (forall z : Z,
      (z < timestamp_min \/ timestamp_max < z)%Z ->
      as_duration (JNum z) = Raise ValueError) /\
  (forall (a b : Z) (d : option timedelta),
      as_duration (JNum a) = Ok d -> as_duration (JNum b) = Ok d -> a = b) /\
  (forall secs : json, as_duration secs = Ok None <-> secs = JNull).
Proof.
  assert (Hcases : forall z : Z,
             (timestamp_min <= z <= timestamp_max)%Z \/
             (z < timestamp_min \/ timestamp_max < z)%Z) by (intros z; lia).
  split; [| split; [| split]].
  - intros z Hrange. exists (timedelta_of_seconds z).
    split; [now apply as_duration_in_range |]. split.
    + unfold total_seconds, timedelta_of_seconds. cbn [days seconds].
      pose proof (Z.div_mod z 86400). lia.
    + cbn [timedelta_of_seconds seconds]. apply Z.mod_pos_bound. lia.
  - exact as_duration_out_of_range.
  - intros a b d Ha Hb.
    destruct (Hcases a) as [Hra | Hra];
      [| rewrite (as_duration_out_of_range a Hra) in Ha; discriminate].
    destruct (Hcases b) as [Hrb | Hrb];
      [| rewrite (as_duration_out_of_range b Hrb) in Hb; discriminate].
    rewrite (as_duration_in_range a Hra) in Ha.
    rewrite (as_duration_in_range b Hrb) in Hb.
    rewrite <- Hb in Ha. injection Ha as Hd Hs.
    pose proof (Z.div_mod a 86400). pose proof (Z.div_mod b 86400). lia.
  - intros secs. split; [| now intros ->].
    destruct secs as [| b | z | | |]; try (cbn [as_duration]; congruence).
    + destruct b; vm_compute; discriminate.
    + destruct (Hcases z) as [Hr | Hr].
      * rewrite (as_duration_in_range z Hr). discriminate.
      * rewrite (as_duration_out_of_range z Hr). discriminate.
Qed.

(** ** The projected-time resolver, continued *)

Lemma find_app_first {A} (f : A -> bool) (pre post : list A) (x : A) :
  (forall y, In y pre -> f y = false) -> f x = true ->
  find f (pre ++ x :: post) = Some x.
Proof.
  intros Hpre Hx. induction pre as [| y pre' IH]; cbn [app find].
  - now rewrite Hx.
  - rewrite (Hpre y (or_introl eq_refl)). apply IH.
    intros z Hz. apply Hpre. now right.
Qed.

(** X9. With a reference, the first candidate of the list whose source
    equals it is the one returned, whatever follows it, other candidates
    with that source included. *)
Theorem retrieve_projected_time_first_match
        (source_ref : json) (pre post : list obj) (c : obj) :
  source_ref <> JNull ->
  (forall c', In c' pre -> py_eq (get_nullable c' "source") source_ref = false) ->
  py_eq (get_nullable c "source") source_ref = true ->
  _retrieve_projected_time source_ref (JArr (map JObj (pre ++ c :: post)))
  = Ok (JObj c).
Proof.
  intros Href Hpre Hc. rewrite (retrieve_projected_time_ref _ _ Href).
  rewrite (find_app_first (source_matches source_ref) pre post c); [reflexivity | |].
  - intros c' Hin. rewrite (source_matches_py_eq _ _ Href). now apply Hpre.
  - now rewrite (source_matches_py_eq _ _ Href).
Qed.

(** X10. What an outcome of the resolver on a list of candidates tells:
    [None] comes out only without a reference and with an empty list;
    anything else returned is a candidate of the list; and the only
    exception raised is [InvalidArguments]. *)
Theorem retrieve_projected_time_outcomes (source_ref : json) (cands : list obj) :
  let r := _retrieve_projected_time source_ref (JArr (map JObj cands)) in
  (r = Ok JNull <-> source_ref = JNull /\ cands = []) /\
  (forall p, r = Ok p -> p <> JNull -> exists c, p = JObj c /\ In c cands) /\
  (forall e, r = Raise e -> exists why, e = InvalidArguments why).
Proof.
  intros r. subst r.
  destruct source_ref eqn:Href;
    try (rewrite retrieve_projected_time_ref by discriminate;
         destruct (find _ cands) as [c |] eqn:Hfind;
         [ apply find_some in Hfind as [Hin _];
           split; [split; [discriminate | intros [H _]; discriminate H] |];
           split; [intros p H _; injection H as <-; eauto | discriminate]
         | split; [split; [discriminate | intros [H _]; discriminate H] |];
           split; [discriminate | intros e H; injection H as <-; eauto] ]).
  unfold _retrieve_projected_time. cbn [is_none negb]. rewrite truthy_dicts.
  destruct cands as [| c [| c' cands']].
  - split; [split; [now split | reflexivity] |]. split; [| discriminate].
    intros p H Hp. injection H as <-. congruence.
  - cbn [map py_len List.length rbind Nat.eqb py_item0].
    split; [split; [discriminate | intros [_ H]; discriminate H] |].
    split; [| discriminate].
    intros p H _. injection H as <-. exists c. split; [reflexivity | now left].
  - cbn [map py_len List.length rbind Nat.eqb].
    split; [split; [discriminate | intros [_ H]; discriminate H] |].
    split; [discriminate |]. intros e H. injection H as <-. eauto.
Qed.

(** ** The classifier of one direction *)

(** X11. The table of the circulation statuses, whatever the projected
    times of the point are: without a time-block the direction is left
    alone; [SUPPRESSION] marks it deleted and records nothing;
    [SUPPRESSION_DETOURNEMENT] marks it deleted and records that it is not
    handled completely; [CREATION] and [DETOURNEMENT] are recorded as not
    handled and change nothing. *)
Theorem direction_status_table (pdp : obj) (t : toggle) (st : StopTimeUpdate) :
  let code := get_value (get_nullable pdp (horaireVoyageur t))
                        "statutCirculationOPE" true in
  (get_nullable pdp (horaireVoyageur t) = JNull ->
   direction_body (JObj pdp) t st = ([], Ok st)) /\
  (code = Ok (JStr "SUPPRESSION") ->
   direction_body (JObj pdp) t st = ([], Ok (set_status t delete st))) /\
  (code = Ok (JStr "SUPPRESSION_DETOURNEMENT") ->
   direction_body (JObj pdp) t st
   = ([StopNotHandledCompletely (JStr "SUPPRESSION_DETOURNEMENT")],
      Ok (set_status t delete st))) /\
  (code = Ok (JStr "CREATION") ->
   direction_body (JObj pdp) t st = ([StopNotHandled (JStr "CREATION")], Ok st)) /\
  (code = Ok (JStr "DETOURNEMENT") ->
   direction_body (JObj pdp) t st = ([StopNotHandled (JStr "DETOURNEMENT")], Ok st)).
Proof.
  intros code. subst code.
  assert (Hcoded : forall c : json,
             get_value (get_nullable pdp (horaireVoyageur t))
                       "statutCirculationOPE" true = Ok c ->
             is_none c = false ->
             direction_body (JObj pdp) t st
             = (if py_eq c (JStr "SUPPRESSION")
                then ret (set_status t delete st)
                else if py_eq c (JStr "SUPPRESSION_DETOURNEMENT")
                then bind (_record_and_log (StopNotHandledCompletely c))
                          (fun _ => ret (set_status t delete st))
                else if py_eq c (JStr "CREATION")
                then bind (_record_and_log (StopNotHandled c)) (fun _ => ret st)
                else if py_eq c (JStr "DETOURNEMENT")
                then bind (_record_and_log (StopNotHandled c)) (fun _ => ret st)
                else raise (InvalidArguments (InvalidStatus c t)))).
  { intros c Hc Hsome. unfold direction_body.
    rewrite get_value_nullable. unfold lift at 1. unfold bind at 1.
    destruct (get_value_ok_dict _ _ _ _ Hc) as [o Hblock].
    rewrite Hblock in *. cbn [is_none]. rewrite Hc.
    unfold lift at 1. unfold bind at 1. rewrite Hsome.
    now destruct (if py_eq c (JStr "SUPPRESSION") then _ else _). }
  split; [| split; [| split; [| split]]].
  - intros Hnone. unfold direction_body. rewrite get_value_nullable, Hnone.
    reflexivity.
  - intros Hc. now rewrite (Hcoded _ Hc eq_refl).
  - intros Hc. now rewrite (Hcoded _ Hc eq_refl).
  - intros Hc. now rewrite (Hcoded _ Hc eq_refl).
  - intros Hc. now rewrite (Hcoded _ Hc eq_refl).
Qed.

(** X12. A direction that does not fail leaves the rest of the
    StopTimeUpdate alone: the matched stop, the message, and the status and
    delay of the other direction are as before. *)
Theorem direction_body_frame (pdp : json) (t : toggle) (st st' : StopTimeUpdate)
        (w : list diag) :
  direction_body pdp t st = (w, Ok st') ->
  stop st' = stop st /\
  st_message st' = st_message st /\
  status_of (other t) st' = status_of (other t) st /\
  delay_of (other t) st' = delay_of (other t) st.
Proof.
  intros H. apply direction_body_shape in H.
  destruct H as [-> | [-> | [td ->]]]; destruct t; repeat split.
Qed.

(** X13. A direction records at most one diagnostic, and one that records
    a diagnostic does not fail: diagnostics come from the statuses handled
    in part only, never with an exception. *)
Theorem direction_body_diagnostics (pdp : json) (t : toggle) (st : StopTimeUpdate)
        (w : list diag) (r : result StopTimeUpdate) :
  direction_body pdp t st = (w, r) ->
  w = [] \/
  exists code st',
    r = Ok st' /\
    (w = [StopNotHandledCompletely code] \/ w = [StopNotHandled code]).
Proof.
  unfold direction_body, lift, raise, ret, _record_and_log, bind.
  destruct (get_value pdp (horaireVoyageur t) true) as [block |];
    [| intros H; injection H as <- _; now left].
  destruct (is_none block); [intros H; injection H as <- _; now left |].
  destruct (get_value block "statutCirculationOPE" true) as [code |];
    [| intros H; injection H as <- _; now left].
  destruct (is_none code).
  - destruct (get_value pdp (sourceHoraireProjeteReference t) true) as [ref |];
      [| intros H; injection H as <- _; now left].
    destruct (get_value pdp (listeHoraireProjete t) true) as [lst |];
      [| intros H; injection H as <- _; now left].
    destruct (_retrieve_projected_time ref lst) as [cand |];
      [| intros H; injection H as <- _; now left].
    destruct (is_none cand); [intros H; injection H as <- _; now left |].
    destruct (get_value cand "pronosticIV" true) as [delay |];
      [| intros H; injection H as <- _; now left].
    destruct (is_none delay); [intros H; injection H as <- _; now left |].
    destruct (as_duration delay); intros H; injection H as <- _; now left.
  - destruct (py_eq code (JStr "SUPPRESSION"));
      [intros H; injection H as <- _; now left |].
    destruct (py_eq code (JStr "SUPPRESSION_DETOURNEMENT"));
      [intros H; injection H as <- <-; right; eauto |].
    destruct (py_eq code (JStr "CREATION"));
      [intros H; injection H as <- <-; right; eauto |].
    destruct (py_eq code (JStr "DETOURNEMENT"));
      [intros H; injection H as <- <-; right; eauto |].
    intros H; injection H as <- _; now left.
Qed.

(** ** Stops, trips and messages *)

Section BuilderMore.

Variable VJ : Type.
Variable DateTime : Type.
Variable contributor : option string.
Variable get_message : json -> option string.
Variable get_navitia_stop_time_sncf :
  json -> json -> json -> VJ -> option obj * option string.
Variable _get_navitia_vjs : json -> DateTime -> DateTime -> result (list VJ).
Variable parser_parse : json -> result DateTime.
Variable ujson_loads : string -> option json.

Let stop_body := pdp_body VJ get_message get_navitia_stop_time_sncf.
Let stop_lookup := _get_navitia_stop_time VJ get_navitia_stop_time_sncf.
Let get_vjs := _get_vjs VJ DateTime _get_navitia_vjs parser_parse.
Let make_trip_update :=
  _make_trip_update VJ contributor get_message get_navitia_stop_time_sncf.
Let build_updates :=
  build VJ DateTime contributor get_message get_navitia_stop_time_sncf
        _get_navitia_vjs parser_parse ujson_loads.

(** X14. A relevant stop the lookup does not find is skipped: the lookup's
    diagnostic, if any, is recorded, no StopTimeUpdate is added, and
    nothing else of the point is read, so that even a status code the
    classifier does not know goes unnoticed. *)
Theorem pdp_body_unmatched (v : VJ) (pdp : obj) (stus : list StopTimeUpdate)
        (log_dict : option string) :
  stop_lookup (JObj pdp) v = Ok (None, log_dict) ->
  stop_body v pdp stus = (lookup_log log_dict, Ok stus).
Proof.
  subst stop_body stop_lookup. intros Hmatch. unfold pdp_body.
  rewrite Hmatch. unfold lift, bind.
  now destruct log_dict.
Qed.

(** X15. The identifying triple of a relevant stop is required, [cr]
    first, then [ci], then [ch]: a point without one of them fails the
    trip update with [InvalidArguments] naming the first missing key and the
    point, before the stop is looked up and with no diagnostic. *)
Theorem pdp_body_missing_triple (v : VJ) (pdp : obj) (stus : list StopTimeUpdate) :
  (get_nullable pdp "cr" = JNull ->
   stop_body v pdp stus
   = ([], Raise (InvalidArguments (MissingKey "cr" (JObj pdp))))) /\
  (get_nullable pdp "cr" <> JNull -> get_nullable pdp "ci" = JNull ->
   stop_body v pdp stus
   = ([], Raise (InvalidArguments (MissingKey "ci" (JObj pdp))))) /\
  (get_nullable pdp "cr" <> JNull -> get_nullable pdp "ci" <> JNull ->
   get_nullable pdp "ch" = JNull ->
   stop_body v pdp stus
   = ([], Raise (InvalidArguments (MissingKey "ch" (JObj pdp))))).
Proof.
  assert (Hreq : forall key, get_nullable pdp key <> JNull ->
                             get_value (JObj pdp) key false
                             = Ok (get_nullable pdp key)).
  { intros key H. unfold get_value, get_nullable in *.
    now destruct (dict_get pdp key). }
  assert (Hmiss : forall key, get_nullable pdp key = JNull ->
                              get_value (JObj pdp) key false
                              = Raise (InvalidArguments (MissingKey key (JObj pdp)))).
  { intros key H. unfold get_value, get_nullable in *. now rewrite H. }
  subst stop_body. unfold pdp_body, _get_navitia_stop_time.
  split; [| split].
  - intros Hcr. now rewrite (Hmiss _ Hcr).
  - intros Hcr Hci. now rewrite (Hreq _ Hcr), (Hmiss _ Hci).
  - intros Hcr Hci Hch. now rewrite (Hreq _ Hcr), (Hreq _ Hci), (Hmiss _ Hch).
Qed.

Lemma for_each_directions_frame (pdp : json) (st st' : StopTimeUpdate)
      (w : list diag) :
  for_each (direction_body pdp) [Arrivee; Depart] st = (w, Ok st') ->
  stop st' = stop st /\ st_message st' = st_message st.
Proof.
  cbn [for_each]. unfold bind at 1.
  destruct (direction_body pdp Arrivee st) as [w1 [st1 |]] eqn:H1;
    [| discriminate].
  unfold bind at 1.
  destruct (direction_body pdp Depart st1) as [w2 [st2 |]] eqn:H2;
    [| discriminate].
  unfold ret. intros H. injection H as _ <-.
  apply direction_body_frame in H1 as (Hs1 & Hm1 & _).
  apply direction_body_frame in H2 as (Hs2 & Hm2 & _).
  split; congruence.
Qed.

(** X16. A relevant stop the lookup finds adds, when none of its
    directions fails, exactly one StopTimeUpdate at the end of the
    sequence: it refers to the ['stop_point'] of what the lookup found
    (an empty object when there is none), carries the cause message of the
    departure reference, or of the arrival reference when the point has no
    departure reference, and pairs statuses and delays consistently. *)
Theorem pdp_body_matched (v : VJ) (pdp : obj) (stus stus' : list StopTimeUpdate)
        (nav_st : obj) (log_dict : option string) (w : list diag) :
  stop_lookup (JObj pdp) v = Ok (Some nav_st, log_dict) ->
  stop_body v pdp stus = (w, Ok stus') ->
  exists st,
    stus' = stus ++ [st] /\
    stop st = dict_get_default nav_st "stop_point" (JObj []) /\
    st_message st = stop_message get_message pdp /\
    delay_consistent st.
Proof.
  subst stop_body stop_lookup. intros Hmatch. unfold pdp_body.
  rewrite Hmatch. unfold lift at 1. unfold bind at 1.
  assert (Hlog : exists wl, match log_dict with
                            | Some log => _record_and_log (StopTimeLog log)
                            | None => ret tt
                            end = (wl, Ok tt)).
  { destruct log_dict; eexists; reflexivity. }
  destruct Hlog as [wl ->]. unfold bind at 1.
  rewrite !get_value_nullable. unfold lift at 1. unfold bind at 1.
  unfold stop_message.
  set (first_id := get_nullable pdp "idMotifInterneDepartReference").
  set (second_id := get_nullable pdp "idMotifInterneArriveeReference").
  destruct (truthy first_id) eqn:Hfirst; cbn [negb].
  - unfold ret at 1. unfold bind at 1. rewrite Hfirst.
    unfold bind at 1.
    destruct (for_each _ _ _) as [wd [st |]] eqn:Hdirs; [| discriminate].
    unfold ret. intros H. injection H as _ <-. exists st.
    destruct (for_each_directions_frame _ _ _ _ Hdirs) as [Hs Hm].
    split; [reflexivity |]. split; [exact Hs |]. split; [exact Hm |].
    eapply (directions_consistent VJ DateTime _get_navitia_vjs parser_parse);
      [| exact Hdirs]; intros t; now destruct t.
  - unfold lift at 1. unfold bind at 1. unfold bind at 1.
    destruct (for_each _ _ _) as [wd [st |]] eqn:Hdirs; [| discriminate].
    unfold ret. intros H. injection H as _ <-. exists st.
    destruct (for_each_directions_frame _ _ _ _ Hdirs) as [Hs Hm].
    split; [reflexivity |]. split.
    + rewrite Hs. now destruct (truthy second_id).
    + split; [rewrite Hm; now destruct (truthy second_id) |].
      eapply (directions_consistent VJ DateTime _get_navitia_vjs parser_parse);
        [| exact Hdirs]; intros t; destruct (truthy second_id); now destruct t.
Qed.

Lemma pdp_body_stops (v : VJ) (pdp : obj) (stus stus' : list StopTimeUpdate)
      (w : list diag) :
  stop_body v pdp stus = (w, Ok stus') ->
  map stop stus'
  = map stop stus ++ matched_stop get_navitia_stop_time_sncf v pdp.
Proof.
  intros Hbody. unfold matched_stop. fold stop_lookup.
  destruct (stop_lookup (JObj pdp) v) as [[[nav_st |] log_dict] | e] eqn:Hmatch.
  - destruct (pdp_body_matched v pdp stus stus' nav_st log_dict w Hmatch Hbody)
      as (st & -> & Hs & _).
    rewrite map_app. cbn [map]. now rewrite Hs.
  - rewrite (pdp_body_unmatched v pdp stus log_dict Hmatch) in Hbody.
    injection Hbody as _ <-. now rewrite app_nil_r.
  - exfalso. subst stop_body stop_lookup. unfold pdp_body in Hbody.
    rewrite Hmatch in Hbody. discriminate Hbody.
Qed.

Lemma for_each_pdp_stops (v : VJ) (pdps : list obj) :
  forall (stus stus' : list StopTimeUpdate) (w : list diag),
    for_each (stop_body v) pdps stus = (w, Ok stus') ->
    map stop stus'
    = map stop stus ++ flat_map (matched_stop get_navitia_stop_time_sncf v) pdps.
Proof.
  induction pdps as [| pdp pdps' IH]; intros stus stus' w; cbn [for_each flat_map].
  - unfold ret. intros H. injection H as _ <-. now rewrite app_nil_r.
  - unfold bind at 1.
    destruct (stop_body v pdp stus) as [w1 [stus1 |]] eqn:Hbody; [| discriminate].
    destruct (for_each _ pdps' stus1) as [w2 r2] eqn:Hrest.
    intros H. injection H as _ ->.
    rewrite (IH stus1 stus' w2 Hrest), (pdp_body_stops v pdp stus stus1 w1 Hbody).
    now rewrite app_assoc.
Qed.

(** X17. Every TripUpdate [_make_trip_update] returns is about the trip
    instance it was asked for, has the builder's contributor, the cause
    message of the trip's reference when there is one, and the status its
    [statutOperationnel] decides: [delete] for [SUPPRIMEE], none for
    [AJOUTEE], [update] for anything else. *)
Theorem make_trip_update_header
        (v : VJ) (json_train : json) (w : list diag) (tu : TripUpdate VJ) :
  make_trip_update v json_train = (w, Ok tu) ->
  exists trip_status,
    get_value json_train "statutOperationnel" false = Ok trip_status /\
    vj VJ tu = v /\
    tu_contributor VJ tu = contributor /\
    tu_message VJ tu = trip_message get_message json_train /\
    tu_status VJ tu = trip_status_of trip_status.
Proof.
  subst make_trip_update. unfold _make_trip_update, trip_message, trip_status_of.
  unfold bind at 1. unfold lift at 1.
  destruct (get_value json_train "idMotifInterneReference" true) as [id |];
    [| discriminate].
  unfold bind at 1. unfold lift at 1.
  destruct (get_value json_train "statutOperationnel" false) as [trip_status |];
    [| discriminate].
  intros H. exists trip_status. split; [reflexivity |].
  destruct (py_eq trip_status (JStr "SUPPRIMEE")).
  { unfold ret in H. injection H as _ <-. now destruct (truthy id). }
  destruct (py_eq trip_status (JStr "AJOUTEE")).
  { unfold bind, _record_and_log, ret in H. injection H as _ <-.
    now destruct (truthy id). }
  unfold bind at 1 in H. unfold lift at 1 in H.
  destruct (get_value json_train "listePointDeParcours" false) as [lst |];
    [| discriminate].
  unfold bind at 1 in H. unfold lift at 1 in H.
  destruct (pdp_list lst) as [list_pdp |]; [| discriminate].
  unfold bind at 1 in H.
  destruct (for_each _ _ _) as [wl [stus |]]; [| discriminate].
  unfold ret in H. injection H as _ <-. now destruct (truthy id).
Qed.

(** X18. The stop-time updates of a TripUpdate with status [update] are
    those of the relevant stops the lookup finds for the trip instance, one
    each and in feed order; a TripUpdate with another status has none.  So
    there are never more of them than points in the message. *)
Theorem make_trip_update_stops
        (v : VJ) (json_train : json) (w : list diag) (tu : TripUpdate VJ) :
  make_trip_update v json_train = (w, Ok tu) ->
  (tu_status VJ tu <> update -> stop_time_updates VJ tu = []) /\
  (tu_status VJ tu = update ->
   exists list_value list_pdp,
     get_value json_train "listePointDeParcours" false = Ok list_value /\
     pdp_list list_value = Ok list_pdp /\
     map stop (stop_time_updates VJ tu)
     = flat_map (matched_stop get_navitia_stop_time_sncf v)
                (_retrieve_interesting_pdp list_pdp) /\
     List.length (stop_time_updates VJ tu) <= List.length list_pdp).
Proof.
  subst make_trip_update. unfold _make_trip_update.
  unfold bind at 1. unfold lift at 1.
  destruct (get_value json_train "idMotifInterneReference" true) as [id |];
    [| discriminate].
  set (tu0 := if truthy id then _ else _).
  assert (Htu0 : stop_time_updates VJ tu0 = []).
  { subst tu0. now destruct (truthy id). }
  unfold bind at 1. unfold lift at 1.
  destruct (get_value json_train "statutOperationnel" false) as [trip_status |];
    [| discriminate].
  destruct (py_eq trip_status (JStr "SUPPRIMEE")).
  { unfold ret. intros H. injection H as _ <-. split; [reflexivity | discriminate]. }
  destruct (py_eq trip_status (JStr "AJOUTEE")).
  { unfold bind, _record_and_log, ret. intros H. injection H as _ <-.
    split; [intros _; exact Htu0 |].
    subst tu0. destruct (truthy id); discriminate. }
  unfold bind at 1. unfold lift at 1.
  destruct (get_value json_train "listePointDeParcours" false) as [lst |];
    [| discriminate].
  unfold bind at 1. unfold lift at 1.
  destruct (pdp_list lst) as [list_pdp |] eqn:Hpdps; [| discriminate].
  unfold bind at 1.
  destruct (for_each _ _ _) as [wl [stus |]] eqn:Hloop; [| discriminate].
  unfold ret. intros H. injection H as _ <-.
  cbn [stop_time_updates tu_status set_stop_time_updates set_tu_status].
  split; [congruence |]. intros _. exists lst, list_pdp.
  split; [reflexivity |]. split; [exact Hpdps |].
  cbn [stop_time_updates set_tu_status] in Hloop. rewrite Htu0 in Hloop.
  pose proof (for_each_pdp_stops v _ _ _ _ Hloop) as Hstops.
  cbn [map app] in Hstops. split; [exact Hstops |].
  rewrite <- (length_map stop), Hstops.
  destruct (retrieve_interesting_pdp_subseq list_pdp) as (_ & Hlen & _).
  assert (Hflat : forall l : list obj,
             List.length (flat_map (matched_stop get_navitia_stop_time_sncf v) l)
             <= List.length l).
  { induction l as [| p l' IH]; [reflexivity |].
    cbn [flat_map]. rewrite length_app. cbn [List.length].
    assert (List.length (matched_stop get_navitia_stop_time_sncf v p) <= 1).
    { unfold matched_stop.
      destruct (_get_navitia_stop_time _ _ _ _) as [[[?|] ?] |]; cbn; lia. }
    lia. }
  specialize (Hflat (_retrieve_interesting_pdp list_pdp)). lia.
Qed.

Lemma map_M_proj {A B} (f : A -> M B) (g : B -> A) (l : list A) :
  (forall x w y, f x = (w, Ok y) -> g y = x) ->
  forall (w : list diag) (ys : list B),
    map_M f l = (w, Ok ys) -> map g ys = l.
Proof.
  intros Hg. induction l as [| x l' IH]; intros w ys; cbn [map_M].
  - unfold ret. intros H. now injection H as _ <-.
  - unfold bind at 1. destruct (f x) as [wx [y |]] eqn:Hx; [| discriminate].
    unfold bind at 1. destruct (map_M f l') as [wl [ys' |]] eqn:Hl;
      [| discriminate].
    unfold ret. intros H. injection H as _ <-. cbn [map].
    now rewrite (Hg x wx y Hx), (IH wl ys' eq_refl).
Qed.

(** X19. What [build] rejects before it looks at the trip: a text that is
    not JSON, an object without the key ['nouvelleVersion'], and an object
    whose ['nouvelleVersion'] is null, each with its own [InvalidArguments]
    and with no diagnostic. *)
Theorem build_rejects (raw_data : string) :
  (ujson_loads raw_data = None ->
   build_updates raw_data = ([], Raise (InvalidArguments InvalidJson))) /\
  (forall doc : obj,
      ujson_loads raw_data = Some (JObj doc) ->
      lookup doc "nouvelleVersion" = None ->
      build_updates raw_data = ([], Raise (InvalidArguments NoNouvelleVersion))) /\
  (forall doc : obj,
      ujson_loads raw_data = Some (JObj doc) ->
      lookup doc "nouvelleVersion" = Some JNull ->
      build_updates raw_data
      = ([], Raise (InvalidArguments (MissingKey "nouvelleVersion" (JObj doc))))).
Proof.
  subst build_updates. unfold build. split; [| split].
  - now intros ->.
  - intros doc -> Hkey. cbn [py_contains]. now rewrite Hkey.
  - intros doc -> Hkey. cbn [py_contains]. rewrite Hkey.
    unfold lift, bind. cbn [negb get_value]. unfold dict_get. now rewrite Hkey.
Qed.

(** X20. When [build] succeeds it returns one TripUpdate for each trip
    instance the lookup gave for the message's [nouvelleVersion], in the
    lookup's order, and all of them have the same status. *)
Theorem build_one_per_trip (raw_data : string) (w : list diag)
        (trip_updates : list (TripUpdate VJ)) :
  build_updates raw_data = (w, Ok trip_updates) ->
  exists (doc json_train : json) (vjs : list VJ) (s : status),
    ujson_loads raw_data = Some doc /\
    get_value doc "nouvelleVersion" false = Ok json_train /\
    get_vjs json_train = Ok vjs /\
    map (vj VJ) trip_updates = vjs /\
    Forall (fun tu => tu_status VJ tu = s) trip_updates.
Proof.
  subst build_updates get_vjs. unfold build.
  destruct (ujson_loads raw_data) as [doc |]; [| discriminate].
  unfold bind at 1. unfold lift at 1.
  destruct (py_contains "nouvelleVersion" doc) as [[|] |]; try discriminate.
  cbn [negb]. unfold bind at 1. unfold lift at 1.
  destruct (get_value doc "nouvelleVersion" false) as [json_train |] eqn:Hversion;
    [| discriminate].
  unfold bind at 1. unfold lift at 1.
  destruct (_get_vjs _ _ _ _ json_train) as [vjs |] eqn:Hvjs; [| discriminate].
  destruct (map_M _ vjs) as [wm r] eqn:Hmap.
  intros H. injection H as _ ->.
  exists doc, json_train, vjs,
    (match get_value json_train "statutOperationnel" false with
     | Ok trip_status => trip_status_of trip_status
     | Raise _ => unset
     end).
  split; [reflexivity |]. split; [exact Hversion |]. split; [exact Hvjs |].
  split.
  - apply (map_M_proj (fun v => make_trip_update v json_train) (vj VJ) vjs)
      with (w := wm); [| exact Hmap].
    intros v wv tu Hv.
    destruct (make_trip_update_header v json_train wv tu Hv) as (ts & _ & Hvj & _).
    exact Hvj.
  - pose proof (map_M_all (fun v => make_trip_update v json_train)
                  vjs wm trip_updates Hmap) as Hall.
    apply Forall_forall. intros tu Htu. rewrite Forall_forall in Hall.
    destruct (Hall tu Htu) as (v & wv & Hv).
    destruct (make_trip_update_header v json_train wv tu Hv)
      as (ts & Hts & _ & _ & _ & Hstatus).
    now rewrite Hts.
Qed.

(** X21. When [_get_vjs] succeeds, the message has a train number, its
    filtered stop list is not empty, and the trip instances are the ones the
    trip lookup returns for that train number between the parsed
    [dateHeure] of the first relevant stop's departure and the parsed
    [dateHeure] of the last relevant stop's arrival. *)
Theorem get_vjs_success (json_train : json) (vjs : list VJ) :
  get_vjs json_train = Ok vjs ->
  exists (train_numbers list_value : json) (list_pdp : list obj)
         (first : obj) (rest : list obj)
         (str_time_start str_time_end : json) (vj_start vj_end : DateTime),
    get_value json_train "numeroCourse" false = Ok train_numbers /\
    get_value json_train "listePointDeParcours" false = Ok list_value /\
    pdp_list list_value = Ok list_pdp /\
    _retrieve_interesting_pdp list_pdp = first :: rest /\
    get_value (get_nullable first "horaireVoyageurDepart") "dateHeure" false
    = Ok str_time_start /\
    parser_parse str_time_start = Ok vj_start /\
    get_value (get_nullable (last rest first) "horaireVoyageurArrivee")
              "dateHeure" false = Ok str_time_end /\
    parser_parse str_time_end = Ok vj_end /\
    _get_navitia_vjs train_numbers vj_start vj_end = Ok vjs.
Proof.
  subst get_vjs. unfold _get_vjs.
  destruct (get_value json_train "numeroCourse" false) as [tn |] eqn:Hnum;
    [| discriminate].
  cbn [rbind].
  destruct (get_value json_train "listePointDeParcours" false) as [lst |] eqn:Hlist;
    [| discriminate].
  cbn [rbind].
  destruct (pdp_list lst) as [list_pdp |] eqn:Hpdps; [| discriminate].
  cbn [rbind].
  destruct (_retrieve_interesting_pdp list_pdp) as [| first rest] eqn:Hres;
    [discriminate |].
  destruct (get_vjs_time_blocks_present VJ DateTime _get_navitia_vjs parser_parse
              list_pdp first rest Hres) as ((Hd & _) & (Ha & _) & _).
  rewrite Hd. cbn [rbind].
  destruct (get_value (get_nullable first "horaireVoyageurDepart") "dateHeure" false)
    as [s1 |] eqn:Hs1; [| discriminate].
  cbn [rbind].
  destruct (parser_parse s1) as [d1 |] eqn:Hp1; [| discriminate].
  cbn [rbind]. rewrite Ha. cbn [rbind]. rewrite last_cons.
  destruct (get_value (get_nullable (last rest first) "horaireVoyageurArrivee")
                      "dateHeure" false) as [s2 |] eqn:Hs2; [| discriminate].
  cbn [rbind].
  destruct (parser_parse s2) as [d2 |] eqn:Hp2; [| discriminate].
  cbn [rbind]. intros Hvjs.
  exists tn, lst, list_pdp, first, rest, s1, s2, d1, d2.
  repeat split; assumption.
Qed.

End BuilderMore.

(** ** The further properties on the sample feeds *)

Module MoreRuns.
Import Sample.

Lemma retrieve_interesting_pdp_leading_witness :
  (forall q, In q [terminus] -> has_depart q = false) /\
  _retrieve_interesting_pdp ([terminus] ++ [origin; halt; terminus])
  = _retrieve_interesting_pdp [origin; halt; terminus].
Proof.
  assert (Hno : forall q, In q [terminus] -> has_depart q = false).
  { intros q [<- | []]. reflexivity. }
  split; [exact Hno |].
  exact (retrieve_interesting_pdp_leading [terminus] [origin; halt; terminus] Hno).
Defined.

Lemma retrieve_interesting_pdp_keeps_arrivals_witness :
  is_station halt = true /\
  has_arrivee halt = true /\
  has_depart halt = true /\
  In halt (_retrieve_interesting_pdp ([siding] ++ halt :: [terminus])).
Proof.
  split; [reflexivity |]. split; [reflexivity |]. split; [reflexivity |].
  exact (proj1 (retrieve_interesting_pdp_keeps_arrivals
                  [siding] [terminus] halt eq_refl eq_refl (or_introl eq_refl))).
Defined.

Lemma retrieve_projected_time_first_match_witness :
  JStr "ESCALE" <> JNull /\
  py_eq (get_nullable cand_gmao "source") (JStr "ESCALE") = false /\
  py_eq (get_nullable cand_escale "source") (JStr "ESCALE") = true /\
  _retrieve_projected_time (JStr "ESCALE")
    (JArr (map JObj ([cand_gmao] ++ cand_escale :: [cand_gmao; cand_escale])))
  = Ok (JObj cand_escale).
Proof.
  assert (Href : JStr "ESCALE" <> JNull) by discriminate.
  assert (Hpre : forall c', In c' [cand_gmao] ->
                            py_eq (get_nullable c' "source") (JStr "ESCALE") = false).
  { intros c' [<- | []]. reflexivity. }
  split; [exact Href |]. split; [reflexivity |]. split; [reflexivity |].
  exact (retrieve_projected_time_first_match (JStr "ESCALE") [cand_gmao]
           [cand_gmao; cand_escale] cand_escale Href Hpre eq_refl).
Defined.

Lemma direction_body_frame_witness :
  direction_body (JObj suppressed_halt) Depart
    (mk_StopTimeUpdate (JStr "H") None delete unset None None)
  = ([], Ok (mk_StopTimeUpdate (JStr "H") None delete delete None None)) /\
  status_of Arrivee (mk_StopTimeUpdate (JStr "H") None delete delete None None)
  = status_of Arrivee (mk_StopTimeUpdate (JStr "H") None delete unset None None) /\
  delay_of Arrivee (mk_StopTimeUpdate (JStr "H") None delete delete None None)
  = delay_of Arrivee (mk_StopTimeUpdate (JStr "H") None delete unset None None).
Proof.
  split; [reflexivity |].
  destruct (direction_body_frame (JObj suppressed_halt) Depart
              (mk_StopTimeUpdate (JStr "H") None delete unset None None)
              (mk_StopTimeUpdate (JStr "H") None delete delete None None)
              [] eq_refl) as (_ & _ & Hst & Hd).
  split; [exact Hst | exact Hd].
Defined.

Lemma direction_body_diagnostics_witness :
  direction_body
    (JObj (point "A" [("horaireVoyageurDepart",
                       coded_block "2015-09-21T15:21:00" "DETOURNEMENT")]))
    Depart (new_StopTimeUpdate JNull)
  = ([StopNotHandled (JStr "DETOURNEMENT")], Ok (new_StopTimeUpdate JNull)) /\
  ([StopNotHandled (JStr "DETOURNEMENT")] = [] \/
   exists code st',
     Ok (new_StopTimeUpdate JNull) = Ok st' /\
     ([StopNotHandled (JStr "DETOURNEMENT")] = [StopNotHandledCompletely code] \/
      [StopNotHandled (JStr "DETOURNEMENT")] = [StopNotHandled code])).
Proof.
  split; [reflexivity |].
  exact (direction_body_diagnostics
           (JObj (point "A" [("horaireVoyageurDepart",
                              coded_block "2015-09-21T15:21:00" "DETOURNEMENT")]))
           Depart (new_StopTimeUpdate JNull)
           [StopNotHandled (JStr "DETOURNEMENT")] (Ok (new_StopTimeUpdate JNull))
           eq_refl).
Defined.

Lemma pdp_body_unmatched_witness :
  _get_navitia_stop_time VJ sparse_stop_time (JObj suppressed_halt) "vj:96231"
  = Ok (None, Some "missing stop point") /\
  pdp_body VJ get_message sparse_stop_time "vj:96231" suppressed_halt []
  = ([StopTimeLog "missing stop point"], Ok []).
Proof.
  split; [reflexivity |].
  exact (pdp_body_unmatched VJ get_message sparse_stop_time "vj:96231"
           suppressed_halt [] (Some "missing stop point") eq_refl).
Defined.

Lemma pdp_body_missing_triple_witness :
  get_nullable [("ci", JStr "0")] "cr" = JNull /\
  pdp_body VJ get_message stop_time "vj:96231" [("ci", JStr "0")] []
  = ([], Raise (InvalidArguments (MissingKey "cr" (JObj [("ci", JStr "0")])))).
Proof.
  split; [reflexivity |].
  exact (proj1 (pdp_body_missing_triple VJ get_message stop_time "vj:96231"
                  [("ci", JStr "0")] []) eq_refl).
Defined.

Lemma pdp_body_matched_witness :
  exists st,
    pdp_body VJ get_message stop_time "vj:96231" delayed_origin [] = ([], Ok [st]) /\
    stop st = JObj [("id", JStr "A")] /\
    st_message st = None /\
    delay_consistent st.
Proof.
  destruct (pdp_body_matched VJ DateTime get_message stop_time navitia_vjs parse
              "vj:96231" delayed_origin []
              [mk_StopTimeUpdate (JObj [("id", JStr "A")]) None unset update
                 None (Some (mk_timedelta 0 900))]
              [("stop_point", JObj [("id", JStr "A")])] None [] eq_refl eq_refl)
    as (st & Heq & Hs & Hm & Hc).
  exists st. split; [| split; [exact Hs | split; [exact Hm | exact Hc]]].
  injection Heq as <-. reflexivity.
Defined.

Lemma make_trip_update_header_witness :
  exists trip_status,
    get_value disrupted "statutOperationnel" false = Ok trip_status /\
    trip_status_of trip_status = update.
Proof.
  destruct (make_trip_update_header VJ None get_message stop_time
              "vj:96231" disrupted []
              (mk_TripUpdate VJ "vj:96231" None None update disrupted_stops)
              Runs.disrupted_run) as (ts & Hts & _ & _ & _ & Hstatus).
  exists ts. split; [exact Hts | now rewrite <- Hstatus].
Defined.

Lemma make_trip_update_stops_witness :
  map stop disrupted_stops
  = flat_map (matched_stop stop_time "vj:96231")
      (_retrieve_interesting_pdp [delayed_origin; suppressed_halt; terminus]).
Proof.
  destruct (make_trip_update_stops VJ DateTime None get_message stop_time
              navitia_vjs parse "vj:96231" disrupted []
              (mk_TripUpdate VJ "vj:96231" None None update disrupted_stops)
              Runs.disrupted_run) as [_ H].
  destruct (H eq_refl) as (lst & l & Hlst & Hl & Hstops & _).
  injection Hlst as <-. injection Hl as <-. exact Hstops.
Defined.

Lemma build_rejects_witness :
  loads "not json" = None /\
  build_updates "not json" = ([], Raise (InvalidArguments InvalidJson)).
Proof.
  split; [reflexivity |].
  exact (proj1 (build_rejects VJ DateTime None get_message stop_time navitia_vjs
                  parse loads "not json") eq_refl).
Defined.

Lemma build_one_per_trip_witness :
  build_updates "cancelled"
  = ([], Ok [mk_TripUpdate VJ "vj:96231" None None delete []]) /\
  exists vjs, get_vjs cancelled = Ok vjs /\ ["vj:96231"] = vjs.
Proof.
  split; [reflexivity |].
  destruct (build_one_per_trip VJ DateTime None get_message stop_time navitia_vjs
              parse loads "cancelled" []
              [mk_TripUpdate VJ "vj:96231" None None delete []] eq_refl)
    as (doc & jt & vjs & s & Hdoc & Hjt & Hvjs & Hmap & _).
  injection Hdoc as <-. injection Hjt as <-.
  exists vjs. split; [exact Hvjs | exact Hmap].
Defined.

Lemma get_vjs_success_witness :
  get_vjs disrupted = Ok ["vj:96231"] /\
  exists train_numbers vj_start vj_end,
    get_value disrupted "numeroCourse" false = Ok train_numbers /\
    navitia_vjs train_numbers vj_start vj_end = Ok ["vj:96231"].
Proof.
  split; [reflexivity |].
  destruct (get_vjs_success VJ DateTime navitia_vjs parse disrupted ["vj:96231"]
              eq_refl)
    as (tn & lst & l & first & rest & s1 & s2 & d1 & d2 & Hn & _ & _ & _ & _ & _ & _ & _ & Hv).
  exists tn, d1, d2. split; [exact Hn | exact Hv].
Defined.

End MoreRuns.
